(** * Framer plugin MCP server: a shallow embedding of [src/index.ts]

    The server exposes two tools, [create_plugin] and [build_plugin].
    Its handlers talk to the file system (fs-extra), to [path] and to
    [child_process]; here they are functions in a small state-and-exception
    monad over a [World] made of a file tree and the log of processes the
    server asked for.

    Strings are sequences of bytes (UTF-8).  The only character-level
    operation of the source, [replace(/-/g, '_')], acts on the ASCII dash,
    whose byte never occurs inside a multi-byte UTF-8 sequence, so the byte
    view and JavaScript's UTF-16 view agree on it. *)

From Stdlib Require Import String Ascii List Bool Arith Lia.
From stdpp Require Import base option list gmap strings fin_maps.

Set Warnings "-register-all".

(* ===================================================================== *)
(** ** Strings *)
(* ===================================================================== *)

Module Str.

(** [hay] contains [needle] as a contiguous substring. *)
Definition contains (hay needle : string) : Prop :=
  ∃ pre post, hay = pre +:+ needle +:+ post.

(** [strip_prefix p s] is what is left of [s] after the prefix [p]. *)
Fixpoint strip_prefix (p s : string) : option string :=
  match p, s with
  | EmptyString, _ => Some s
  | String a p', String b s' =>
      if Ascii.eqb a b then strip_prefix p' s' else None
  | String _ _, EmptyString => None
  end.

(** The text after the first occurrence of [needle] in [s]. *)
Fixpoint after_first (needle s : string) : option string :=
  match strip_prefix needle s with
  | Some rest => Some rest
  | None =>
      match s with
      | EmptyString => None
      | String _ s' => after_first needle s'
      end
  end.

(** The text after the last occurrence of [needle] in [s]. *)
Fixpoint after_last (needle s : string) : option string :=
  match s with
  | EmptyString => strip_prefix needle EmptyString
  | String _ s' =>
      match after_last needle s' with
      | Some rest => Some rest
      | None => strip_prefix needle s
      end
  end.

(** The longest prefix of [s] without the character [stop]. *)
Fixpoint take_until (stop : ascii) (s : string) : string :=
  match s with
  | EmptyString => EmptyString
  | String c s' =>
      if Ascii.eqb c stop then EmptyString else String c (take_until stop s')
  end.

(** [String.prototype.replace] with a global one-character pattern:
    every match of [pat] is replaced by the string [rep], everything else
    is copied. *)
Fixpoint replace_all (pat : ascii) (rep : string) (s : string) : string :=
  match s with
  | EmptyString => EmptyString
  | String c s' =>
      if Ascii.eqb c pat then rep +:+ replace_all pat rep s'
      else String c (replace_all pat rep s')
  end.

(** [Array.prototype.join]. *)
Fixpoint join (sep : string) (l : list string) : string :=
  match l with
  | [] => EmptyString
  | [x] => x
  | x :: rest => x +:+ sep +:+ join sep rest
  end.

(** The pieces of [s] between the occurrences of [sep]. *)
Fixpoint split_on (sep : ascii) (s : string) : list string :=
  match s with
  | EmptyString => [EmptyString]
  | String c s' =>
      if Ascii.eqb c sep then EmptyString :: split_on sep s'
      else match split_on sep s' with
           | [] => [String c EmptyString]
           | w :: ws => String c w :: ws
           end
  end.

Definition occurs (c : ascii) (s : string) : Prop :=
  ∃ i, String.get i s = Some c.

End Str.

(* ===================================================================== *)
(** ** Paths, as [path.resolve] and [path.join] produce them (POSIX) *)
(* ===================================================================== *)

(** A resolved path is absolute and normalised; it is kept as the list of
    its segments, the root being the empty list.  [Path.str] gives the
    string JavaScript sees. *)
Abbreviation path := (list string).

Module Path.

Definition str (p : path) : string :=
  match p with
  | [] => "/"
  | _ => foldr (λ seg acc, "/" +:+ seg +:+ acc) EmptyString p
  end.

Definition is_absolute (s : string) : bool :=
  match s with
  | String c _ => Ascii.eqb c "/"
  | EmptyString => false
  end.

(** One step of the normalisation: empty and [.] segments are dropped,
    [..] goes up (and stays at the root). *)
Definition push_segment (p : path) (seg : string) : path :=
  if String.eqb seg "" || String.eqb seg "." then p
  else if String.eqb seg ".." then removelast p
  else p ++ [seg].

(** [path.resolve(s)] in a process whose working directory is [cwd]. *)
Definition resolve (cwd : path) (s : string) : path :=
  fold_left push_segment (Str.split_on "/" s)
            (if is_absolute s then [] else cwd).

(** [path.join(dir, name)] for a resolved [dir] and a plain file name. *)
Definition join (dir : path) (name : string) : path := dir ++ [name].

(** The directories from the root down to [p], [p] included. *)
Fixpoint chain (base : path) (segs : list string) : list path :=
  match segs with
  | [] => []
  | s :: rest => (base ++ [s]) :: chain (base ++ [s]) rest
  end.

Definition parent (p : path) : path := removelast p.

End Path.

(* ===================================================================== *)
(** ** Errors and the monad of the handlers *)
(* ===================================================================== *)

(** The two JSON-RPC codes the server uses. *)
Inductive ErrorCode := MethodNotFound | InternalError.

(** What JavaScript code throws here: a plain [Error], or the SDK's
    [McpError] with the code and message given to its constructor. *)
Inductive exn :=
| JsError (msg : string)
| McpError (code : ErrorCode) (msg : string).

Definition exn_message (e : exn) : string :=
  match e with
  | JsError msg => msg
  | McpError _ msg => msg
  end.

Inductive node :=
| Dir
| File (content : string).

Record World := mkWorld {
  files : gmap path node;
  spawned : list (string * path)
}.

Inductive outcome (A : Type) :=
| Returned (a : A)
| Thrown (e : exn).
Arguments Returned {A} a.
Arguments Thrown {A} e.

Definition M (A : Type) : Type := World → outcome A * World.

Definition ret {A} (a : A) : M A := λ w, (Returned a, w).

Definition bind {A B} (m : M A) (k : A → M B) : M B :=
  λ w, match m w with
       | (Returned a, w') => k a w'
       | (Thrown e, w') => (Thrown e, w')
       end.

Definition throw {A} (e : exn) : M A := λ w, (Thrown e, w).

(** [try { body } catch (error) { handler }]: the effects of [body] up to
    the throw stay. *)
Definition try_catch {A} (body : M A) (handler : exn → M A) : M A :=
  λ w, match body w with
       | (Returned a, w') => (Returned a, w')
       | (Thrown e, w') => handler e w'
       end.

#[global] Instance M_ret : MRet M := @ret.
#[global] Instance M_bind : MBind M := λ A B k m, bind m k.

(* ===================================================================== *)
(** ** The file system (fs-extra) *)
(* ===================================================================== *)

Module Fs.

(** The errors of the system calls, with the messages Node gives them. *)
Definition EEXIST (p : path) : exn :=
  JsError ("EEXIST: file already exists, mkdir '" +:+ Path.str p +:+ "'").
Definition EISDIR (p : path) : exn :=
  JsError ("EISDIR: illegal operation on a directory, open '" +:+ Path.str p +:+ "'").
Definition ENOTDIR (p : path) : exn :=
  JsError ("ENOTDIR: not a directory, open '" +:+ Path.str p +:+ "'").
Definition ENOENT (p : path) : exn :=
  JsError ("ENOENT: no such file or directory, open '" +:+ Path.str p +:+ "'").

(** The root always exists and is a directory. *)
Definition stat (m : gmap path node) (p : path) : option node :=
  match p with
  | [] => Some Dir
  | _ => m !! p
  end.

(** [mkdir -p] along [todo], from the root down: existing directories are
    kept, missing ones made, and a regular file in the way is an error. *)
Fixpoint mkdirs (m : gmap path node) (todo : list path) : exn + gmap path node :=
  match todo with
  | [] => inr m
  | q :: rest =>
      match m !! q with
      | Some (File _) => inl (EEXIST q)
      | Some Dir => mkdirs m rest
      | None => mkdirs (<[q := Dir]> m) rest
      end
  end.

Definition lift (f : gmap path node → exn + gmap path node) : M () :=
  λ w, match f (files w) with
       | inl e => (Thrown e, w)
       | inr m' => (Returned (), mkWorld m' (spawned w))
       end.

(** [fs.ensureDir(p)]. *)
Definition ensureDir (p : path) : M () :=
  lift (λ m, mkdirs m (Path.chain [] p)).

(** What [fs.writeFile(p, data)] does to the tree: the parent has to be a
    directory and [p] must not be one; an existing file is replaced. *)
Definition write (p : path) (data : string) (m : gmap path node)
  : exn + gmap path node :=
  match stat m (Path.parent p) with
  | Some Dir =>
      match stat m p with
      | Some Dir => inl (EISDIR p)
      | _ => inr (<[p := File data]> m)
      end
  | Some (File _) => inl (ENOTDIR p)
  | None => inl (ENOENT p)
  end.

Definition writeFile (p : path) (data : string) : M () := lift (write p data).

(** [fs.pathExists(p)]: true for whatever lives at [p], file or directory. *)
Definition pathExists (p : path) : M bool :=
  λ w, (Returned (bool_decide (is_Some (stat (files w) p))), w).

End Fs.

(* ===================================================================== *)
(** ** JSON values and [JSON.stringify(value, null, 2)] *)
(* ===================================================================== *)

Module Json.

(** Objects keep their keys in insertion order, as JavaScript does for
    keys that are not array indices. *)
Inductive value :=
| JString (s : string)
| JBool (b : bool)
| JArray (items : list value)
| JObject (members : list (string * value)).

Definition nl : string := String "010"%char EmptyString.
Definition dquote : string := String "034"%char EmptyString.

Definition hex_digit (n : nat) : ascii :=
  nth n ["0"; "1"; "2"; "3"; "4"; "5"; "6"; "7"; "8"; "9";
         "a"; "b"; "c"; "d"; "e"; "f"]%char "0"%char.

(** How one byte of a string is written between the quotes. *)
Definition escape_char (c : ascii) : string :=
  let n := nat_of_ascii c in
  if n =? 34 then "\" +:+ dquote
  else if n =? 92 then "\\"
  else if n =? 8 then "\b"
  else if n =? 12 then "\f"
  else if n =? 10 then "\n"
  else if n =? 13 then "\r"
  else if n =? 9 then "\t"
  else if n <? 32 then
    "\u00" +:+ String (hex_digit (n / 16)) (String (hex_digit (n mod 16)) EmptyString)
  else String c EmptyString.

Fixpoint escape (s : string) : string :=
  match s with
  | EmptyString => EmptyString
  | String c s' => escape_char c +:+ escape s'
  end.

Definition quote (s : string) : string := dquote +:+ escape s +:+ dquote.

(** [stringify_at indent v]: the text of [v] when the enclosing line is
    indented by [indent]; every level adds two spaces. *)
Fixpoint stringify_at (indent : string) (v : value) : string :=
  let inner := indent +:+ "  " in
  match v with
  | JString s => quote s
  | JBool b => if b then "true" else "false"
  | JArray [] => "[]"
  | JArray items =>
      "[" +:+ nl
      +:+ Str.join ("," +:+ nl)
            (List.map (λ x, inner +:+ stringify_at inner x) items)
      +:+ nl +:+ indent +:+ "]"
  | JObject [] => "{}"
  | JObject members =>
      "{" +:+ nl
      +:+ Str.join ("," +:+ nl)
            (List.map (λ kv, let '(k, x) := kv in
                             inner +:+ quote k +:+ ": " +:+ stringify_at inner x)
                      members)
      +:+ nl +:+ indent +:+ "}"
  end.

Definition stringify (v : value) : string := stringify_at EmptyString v.

(** A [Record<string, string>]. *)
Definition of_record (r : list (string * string)) : value :=
  JObject (List.map (λ kv, (kv.1, JString kv.2)) r).

(** [obj[k] = v] on an ordered object: an existing key keeps its place. *)
Fixpoint set (k v : string) (r : list (string * string)) : list (string * string) :=
  match r with
  | [] => [(k, v)]
  | (k', v') :: rest =>
      if String.eqb k' k then (k', v) :: rest else (k', v') :: set k v rest
  end.

(** [{...r, k1: v1, k2: v2, ...}]. *)
Definition spread (r extra : list (string * string)) : list (string * string) :=
  fold_left (λ acc kv, set kv.1 kv.2 acc) extra r.

Definition keys (r : list (string * string)) : list string := List.map fst r.

End Json.

(** [fs.writeJSON(p, obj, { spaces: 2 })]: the text of [obj] and a final
    newline, written as [fs.writeFile] does. *)
Definition writeJSON_text (obj : Json.value) : string :=
  Json.stringify obj +:+ Json.nl.

Definition writeJSON (p : path) (obj : Json.value) : M () :=
  Fs.writeFile p (writeJSON_text obj).

(* ===================================================================== *)
(** ** Requests and results *)
(* ===================================================================== *)

Record CreatePluginArgs := mkCreatePluginArgs {
  name : string;
  description : string;
  outputPath : string;
  web3Features : option (list string)
}.

Record BuildPluginArgs := mkBuildPluginArgs {
  pluginPath : string
}.

Record PackageJson := mkPackageJson {
  pkg_name : string;
  pkg_version : string;
  pkg_description : string;
  pkg_main : string;
  pkg_scripts : list (string * string);
  pkg_dependencies : list (string * string);
  pkg_devDependencies : list (string * string)
}.

Definition PackageJson_value (p : PackageJson) : Json.value :=
  Json.JObject
    [ ("name", Json.JString (pkg_name p));
      ("version", Json.JString (pkg_version p));
      ("description", Json.JString (pkg_description p));
      ("main", Json.JString (pkg_main p));
      ("scripts", Json.of_record (pkg_scripts p));
      ("dependencies", Json.of_record (pkg_dependencies p));
      ("devDependencies", Json.of_record (pkg_devDependencies p)) ].

(** One block of a tool result: [{ type: 'text', text }]. *)
Inductive ContentBlock :=
| TextBlock (text : string).

Record ToolResult := mkToolResult {
  content : list ContentBlock
}.

Record Tool := mkTool {
  tool_name : string;
  tool_description : string;
  inputSchema : Json.value
}.

(** The arguments of a tool call reach the handlers through a cast; a call
    carries one of the two shapes. *)
Inductive Arguments :=
| CreateArguments (args : CreatePluginArgs)
| BuildArguments (args : BuildPluginArgs).

(* ===================================================================== *)
(** ** What [handleCreatePlugin] generates *)
(* ===================================================================== *)

(** [Array.prototype.includes] on strings. *)
Definition includes (l : list string) (x : string) : bool :=
  existsb (λ y, String.eqb y x) l.

(** [args.web3Features?.includes('wallet-connect')], as a condition. *)
Definition has_wallet_connect (args : CreatePluginArgs) : bool :=
  match web3Features args with
  | Some l => includes l "wallet-connect"
  | None => false
  end.

Definition base_dependencies : list (string * string) :=
  [ ("@framer/framer.motion", "^10.0.0");
    ("react", "^18.2.0");
    ("react-dom", "^18.2.0") ].

Definition web3_dependencies : list (string * string) :=
  [ ("@web3-react/core", "^8.2.0");
    ("@web3-react/injected-connector", "^6.0.7");
    ("ethers", "^6.7.0") ].

Definition packageJson (args : CreatePluginArgs) : PackageJson :=
  let packageJson :=
    {| pkg_name := name args;
       pkg_version := "1.0.0";
       pkg_description := description args;
       pkg_main := "dist/index.js";
       pkg_scripts := [ ("build", "vite build"); ("dev", "vite") ];
       pkg_dependencies := base_dependencies;
       pkg_devDependencies :=
         [ ("@types/react", "^18.2.0");
           ("typescript", "^5.0.0");
           ("vite", "^4.0.0");
           ("@vitejs/plugin-react", "^4.0.0") ] |} in
  if has_wallet_connect args then
    {| pkg_name := pkg_name packageJson;
       pkg_version := pkg_version packageJson;
       pkg_description := pkg_description packageJson;
       pkg_main := pkg_main packageJson;
       pkg_scripts := pkg_scripts packageJson;
       pkg_dependencies :=
         Json.spread (pkg_dependencies packageJson) web3_dependencies;
       pkg_devDependencies := pkg_devDependencies packageJson |}
  else packageJson.

Definition tsConfig : Json.value :=
  Json.JObject
    [ ("compilerOptions",
       Json.JObject
         [ ("target", Json.JString "ES2020");
           ("lib", Json.JArray [ Json.JString "DOM";
                                 Json.JString "DOM.Iterable";
                                 Json.JString "ESNext" ]);
           ("module", Json.JString "ESNext");
           ("skipLibCheck", Json.JBool true);
           ("moduleResolution", Json.JString "bundler");
           ("allowImportingTsExtensions", Json.JBool true);
           ("resolveJsonModule", Json.JBool true);
           ("isolatedModules", Json.JBool true);
           ("noEmit", Json.JBool true);
           ("jsx", Json.JString "react-jsx");
           ("strict", Json.JBool true);
           ("noUnusedLocals", Json.JBool true);
           ("noUnusedParameters", Json.JBool true);
           ("noFallthroughCasesInSwitch", Json.JBool true) ]);
      ("include", Json.JArray [ Json.JString "src" ]);
      ("references",
       Json.JArray [ Json.JObject [ ("path", Json.JString "./tsconfig.node.json") ] ]) ].

Definition tsNodeConfig : Json.value :=
  Json.JObject
    [ ("compilerOptions",
       Json.JObject
         [ ("composite", Json.JBool true);
           ("skipLibCheck", Json.JBool true);
           ("module", Json.JString "ESNext");
           ("moduleResolution", Json.JString "bundler");
           ("allowSyntheticDefaultImports", Json.JBool true) ]);
      ("include", Json.JArray [ Json.JString "vite.config.ts" ]) ].

Definition viteConfig (args : CreatePluginArgs) : string :=
  "
import { defineConfig } from 'vite';
import react from '@vitejs/plugin-react';

export default defineConfig({
  plugins: [react()],
  build: {
    lib: {
      entry: 'src/index.tsx',
      name: '" +:+ name args +:+ "',
      formats: ['es'],
      fileName: 'index'
    },
    rollupOptions: {
      external: ['react', 'react-dom'],
      output: {
        globals: {
          react: 'React',
          'react-dom': 'ReactDOM'
        }
      }
    }
  }
});
".

(** The identifier of the generated component:
    [args.name.replace(/-/g, '_')]. *)
Definition component_name (args : CreatePluginArgs) : string :=
  Str.replace_all "-" "_" (name args).

Definition indexContent (args : CreatePluginArgs) : string :=
  let indexContent :=
    "
import { addPropertyControls, ControlType } from 'framer';
import { motion } from 'framer-motion';
import React from 'react';

export default function " +:+ component_name args +:+ "() {
  return (
    <motion.div
      style={{
        width: 200,
        height: 200,
        backgroundColor: '#09F',
        borderRadius: 20,
      }}
      whileHover={{ scale: 1.1 }}
      whileTap={{ scale: 0.9 }}
    />
  );
}

addPropertyControls(" +:+ component_name args +:+ ", {
  text: {
    type: ControlType.String,
    title: 'Text',
    defaultValue: 'Hello World',
  },
});
" in
  if has_wallet_connect args then
    "
import { addPropertyControls, ControlType } from 'framer';
import { motion } from 'framer-motion';
import React from 'react';
import { Web3ReactProvider, useWeb3React } from '@web3-react/core';
import { InjectedConnector } from '@web3-react/injected-connector';
import { ethers } from 'ethers';

const injected = new InjectedConnector({
  supportedChainIds: [1, 3, 4, 5, 42],
});

function Web3Button() {
  const { activate, active, account, library } = useWeb3React();

  const connect = async () => {
    try {
      await activate(injected);
    } catch (error) {
      console.error('Error connecting:', error);
    }
  };

  return (
    <motion.button
      onClick={connect}
      whileHover={{ scale: 1.1 }}
      whileTap={{ scale: 0.9 }}
      style={{
        padding: '10px 20px',
        borderRadius: 8,
        backgroundColor: active ? '#4CAF50' : '#09F',
        color: 'white',
        border: 'none',
        cursor: 'pointer',
      }}
    >
      {active ? `Connected: ${account?.slice(0, 6)}...${account?.slice(-4)}` : 'Connect Wallet'}
    </motion.button>
  );
}

export default function " +:+ component_name args +:+ "() {
  return (
    <Web3ReactProvider getLibrary={(provider) => new ethers.BrowserProvider(provider)}>
      <Web3Button />
    </Web3ReactProvider>
  );
}

addPropertyControls(" +:+ component_name args +:+ ", {
  text: {
    type: ControlType.String,
    title: 'Text',
    defaultValue: 'Connect Wallet',
  },
});
"
  else indexContent.

(* ===================================================================== *)
(** ** The server *)
(* ===================================================================== *)

Section Server.

(** The working directory of the server process. *)
Variable cwd : path.

(** What running a command in a directory does: the outcome of
    [execSync] and the file tree the child process leaves behind. *)
Variable run : string → path → gmap path node → outcome () * gmap path node.

(** [execSync(command, { cwd: dir, stdio: 'inherit' })], the
    [require('child_process')] before it taken to resolve: the request is
    logged and the command run. *)
Definition execSync (command : string) (dir : path) : M () :=
  λ w, let '(r, m') := run command dir (files w) in
       (r, mkWorld m' (spawned w ++ [(command, dir)])).

Definition listTools : M (list Tool) :=
  mret
    [ {| tool_name := "create_plugin";
         tool_description := "Create a new Framer plugin project with web3 capabilities";
         inputSchema :=
           Json.JObject
             [ ("type", Json.JString "object");
               ("properties",
                Json.JObject
                  [ ("name",
                     Json.JObject [ ("type", Json.JString "string");
                                    ("description", Json.JString "Plugin name") ]);
                    ("description",
                     Json.JObject [ ("type", Json.JString "string");
                                    ("description", Json.JString "Plugin description") ]);
                    ("outputPath",
                     Json.JObject [ ("type", Json.JString "string");
                                    ("description", Json.JString "Output directory path") ]);
                    ("web3Features",
                     Json.JObject
                       [ ("type", Json.JString "array");
                         ("items",
                          Json.JObject
                            [ ("type", Json.JString "string");
                              ("enum",
                               Json.JArray [ Json.JString "wallet-connect";
                                             Json.JString "contract-interaction";
                                             Json.JString "nft-display" ]) ]);
                         ("description", Json.JString "Web3 features to include") ]) ]);
               ("required",
                Json.JArray [ Json.JString "name";
                              Json.JString "description";
                              Json.JString "outputPath" ]) ] |};
      {| tool_name := "build_plugin";
         tool_description := "Build a Framer plugin project";
         inputSchema :=
           Json.JObject
             [ ("type", Json.JString "object");
               ("properties",
                Json.JObject
                  [ ("pluginPath",
                     Json.JObject [ ("type", Json.JString "string");
                                    ("description", Json.JString "Path to plugin directory") ]) ]);
               ("required", Json.JArray [ Json.JString "pluginPath" ]) ] |} ].

Definition handleCreatePlugin (args : CreatePluginArgs) : M ToolResult :=
  try_catch
    (let pluginDir := Path.resolve cwd (outputPath args) in
     Fs.ensureDir pluginDir;;
     writeJSON (Path.join pluginDir "package.json")
               (PackageJson_value (packageJson args));;
     writeJSON (Path.join pluginDir "tsconfig.json") tsConfig;;
     writeJSON (Path.join pluginDir "tsconfig.node.json") tsNodeConfig;;
     Fs.writeFile (Path.join pluginDir "vite.config.ts") (viteConfig args);;
     let srcDir := Path.join pluginDir "src" in
     Fs.ensureDir srcDir;;
     Fs.writeFile (Path.join srcDir "index.tsx") (indexContent args);;
     mret {| content :=
               [ TextBlock ("Successfully created Framer plugin project at "
                            +:+ Path.str pluginDir) ] |})
    (λ error,
       throw (McpError InternalError
                       ("Failed to create plugin: " +:+ exn_message error))).

Definition handleBuildPlugin (args : BuildPluginArgs) : M ToolResult :=
  try_catch
    (let pluginDir := Path.resolve cwd (pluginPath args) in
     exists_ ← Fs.pathExists pluginDir;
     (if negb exists_
      then throw (JsError ("Plugin directory not found: " +:+ Path.str pluginDir))
      else mret ());;
     execSync "npm run build" pluginDir;;
     mret {| content :=
               [ TextBlock ("Successfully built plugin at " +:+ Path.str pluginDir) ] |})
    (λ error,
       throw (McpError InternalError
                       ("Failed to build plugin: " +:+ exn_message error))).

(** [path.resolve(undefined)] throws this [TypeError]: it is what a
    handler meets when the call carries the other tool's arguments. *)
Definition resolve_undefined : exn :=
  JsError ("The " +:+ Json.dquote +:+ "paths[0]" +:+ Json.dquote
           +:+ " argument must be of type string. Received undefined").

Definition callTool (tool : string) (arguments : Arguments) : M ToolResult :=
  if String.eqb tool "create_plugin" then
    match arguments with
    | CreateArguments args => handleCreatePlugin args
    | BuildArguments _ =>
        throw (McpError InternalError
                        ("Failed to create plugin: " +:+ exn_message resolve_undefined))
    end
  else if String.eqb tool "build_plugin" then
    match arguments with
    | BuildArguments args => handleBuildPlugin args
    | CreateArguments _ =>
        throw (McpError InternalError
                        ("Failed to build plugin: " +:+ exn_message resolve_undefined))
    end
  else
    throw (McpError MethodNotFound ("Unknown tool: " +:+ tool)).

End Server.

(* ===================================================================== *)
(** ** Readers of the generated source, and the spec's wording of the
       identifier *)
(* ===================================================================== *)

(** The name declared by the first [export default function ...(] of a
    source text. *)
Definition exported_identifier (source : string) : option string :=
  Str.take_until "(" <$> Str.after_first "export default function " source.

(** The default value of the property control: the quoted text after the
    last [defaultValue: ']. *)
Definition default_text (source : string) : option string :=
  Str.take_until "'" <$> Str.after_last "defaultValue: '" source.

(** The spec's words: every dash replaced by an underscore, character by
    character. *)
Fixpoint dash_to_underscore (s : string) : string :=
  match s with
  | EmptyString => EmptyString
  | String c s' =>
      String (if Ascii.eqb c "-" then "_"%char else c) (dash_to_underscore s')
  end.

(** The five files of a scaffold in the directory [d]. *)
Definition generated_files (d : path) : list path :=
  [ Path.join d "package.json";
    Path.join d "tsconfig.json";
    Path.join d "tsconfig.node.json";
    Path.join d "vite.config.ts";
    Path.join (Path.join d "src") "index.tsx" ].

(** The tree a successful [handleCreatePlugin] leaves, from the tree [m]
    in which the output directory exists. *)
Definition scaffold (args : CreatePluginArgs) (d : path) (m : gmap path node)
  : gmap path node :=
  <[Path.join (Path.join d "src") "index.tsx" := File (indexContent args)]>
    (<[Path.join d "src" := Dir]>
       (<[Path.join d "vite.config.ts" := File (viteConfig args)]>
          (<[Path.join d "tsconfig.node.json" := File (writeJSON_text tsNodeConfig)]>
             (<[Path.join d "tsconfig.json" := File (writeJSON_text tsConfig)]>
                (<[Path.join d "package.json" :=
                     File (writeJSON_text (PackageJson_value (packageJson args)))]> m))))).

(** The members of a JSON object, and the strings of a JSON array. *)
Definition member (k : string) (v : Json.value) : option Json.value :=
  match v with
  | Json.JObject members => snd <$> List.find (λ kv, String.eqb kv.1 k) members
  | _ => None
  end.

Definition strings_of (v : option Json.value) : list string :=
  match v with
  | Some (Json.JArray items) =>
      omap (λ x, match x with Json.JString s => Some s | _ => None end) items
  | _ => []
  end.

(** A child process as POSIX starts it: no process starts in a working
    directory that is not a directory; a started build leaves the tree as
    it is and exits with status 0. *)
Definition posix_run (command : string) (dir : path) (m : gmap path node)
  : outcome () * gmap path node :=
  match Fs.stat m dir with
  | Some Dir => (Returned (), m)
  | Some (File _) => (Thrown (JsError "spawnSync /bin/sh ENOTDIR"), m)
  | None => (Thrown (JsError "spawnSync /bin/sh ENOENT"), m)
  end.

(* ===================================================================== *)
(** ** Definitions used by the statements *)
(* ===================================================================== *)

Definition is_dir (o : option node) : bool :=
  match o with Some Dir => true | _ => false end.

Definition is_file (o : option node) : bool :=
  match o with Some (File _) => true | _ => false end.

(** Nothing in the way of a scaffold in [d]: none of the five files is a
    directory and [src] is not a regular file. *)
Definition scaffold_ok (d : path) (m : gmap path node) : bool :=
  forallb (λ p, negb (is_dir (m !! p))) (generated_files d)
  && negb (is_file (m !! Path.join d "src")).

Definition dirs_made (d : path) (m : gmap path node) : Prop :=
  ∀ q, q ∈ Path.chain [] d → m !! q = Some Dir.

(** The result block of a successful creation in [d]. *)
Definition created (d : path) : ToolResult :=
  {| content :=
       [ TextBlock ("Successfully created Framer plugin project at "
                    +:+ Path.str d) ] |}.

(** What the [catch] of [handleCreatePlugin] makes of an error. *)
Definition create_failed (e : exn) : exn :=
  McpError InternalError ("Failed to create plugin: " +:+ exn_message e).

(** The run of [handleCreatePlugin] once the output directory [d] is
    there, in the tree [m1]: the writes happen in order and the first one
    that meets a directory where a file is to go (or a file where [src] is
    to go) stops the run, the earlier writes staying. *)
Definition create_run (args : CreatePluginArgs) (d : path) (m1 : gmap path node)
  : outcome ToolResult * gmap path node :=
  let package := Path.join d "package.json" in
  let tsconfig := Path.join d "tsconfig.json" in
  let tsnode := Path.join d "tsconfig.node.json" in
  let vite := Path.join d "vite.config.ts" in
  let src := Path.join d "src" in
  let index := Path.join src "index.tsx" in
  if is_dir (m1 !! package) then (Thrown (create_failed (Fs.EISDIR package)), m1)
  else
    let m2 := <[package := File (writeJSON_text (PackageJson_value (packageJson args)))]> m1 in
    if is_dir (m1 !! tsconfig) then (Thrown (create_failed (Fs.EISDIR tsconfig)), m2)
    else
      let m3 := <[tsconfig := File (writeJSON_text tsConfig)]> m2 in
      if is_dir (m1 !! tsnode) then (Thrown (create_failed (Fs.EISDIR tsnode)), m3)
      else
        let m4 := <[tsnode := File (writeJSON_text tsNodeConfig)]> m3 in
        if is_dir (m1 !! vite) then (Thrown (create_failed (Fs.EISDIR vite)), m4)
        else
          let m5 := <[vite := File (viteConfig args)]> m4 in
          if is_file (m1 !! src) then (Thrown (create_failed (Fs.EEXIST src)), m5)
          else
            let m6 := <[src := Dir]> m5 in
            if is_dir (m1 !! index) then (Thrown (create_failed (Fs.EISDIR index)), m6)
            else (Returned (created d), <[index := File (indexContent args)]> m6).

(** The result block of a successful build in [d]. *)
Definition built (d : path) : ToolResult :=
  {| content := [ TextBlock ("Successfully built plugin at " +:+ Path.str d) ] |}.

(** Whether a feature is among those of a request. *)
Definition feature_present (args : CreatePluginArgs) (feature : string) : bool :=
  match web3Features args with
  | Some l => includes l feature
  | None => false
  end.

(** The text of each variant of the source file between the declaration of
    the component and the registration of its property controls, and the
    text after that registration. *)
Definition variant_body (wallet : bool) : string :=
  if wallet then "
  return (
    <Web3ReactProvider getLibrary={(provider) => new ethers.BrowserProvider(provider)}>
      <Web3Button />
    </Web3ReactProvider>
  );
}

" else "
  return (
    <motion.div
      style={{
        width: 200,
        height: 200,
        backgroundColor: '#09F',
        borderRadius: 20,
      }}
      whileHover={{ scale: 1.1 }}
      whileTap={{ scale: 0.9 }}
    />
  );
}

".

Definition variant_tail (wallet : bool) : string :=
  if wallet then "
  text: {
    type: ControlType.String,
    title: 'Text',
    defaultValue: 'Connect Wallet',
  },
});
" else "
  text: {
    type: ControlType.String,
    title: 'Text',
    defaultValue: 'Hello World',
  },
});
".

(** Whether the generated package descriptor lists [package] among its
    dependencies or its development dependencies. *)
Definition declared_package (args : CreatePluginArgs) (package : string) : bool :=
  existsb (λ k, String.eqb k package)
          (Json.keys (pkg_dependencies (packageJson args))
           ++ Json.keys (pkg_devDependencies (packageJson args))).

(** The library entry of the generated bundler configuration: the quoted
    text after the first [entry: ']. *)
Definition vite_entry (args : CreatePluginArgs) : option string :=
  Str.take_until "'" <$> Str.after_first "entry: '" (viteConfig args).

(** The paths the generated configuration files point to, relative to the
    project directory: what the two compiler configurations include, the
    project reference of the first one, and the bundler's entry. *)
Definition referenced_paths (args : CreatePluginArgs) : list string :=
  strings_of (member "include" tsConfig)
  ++ omap (λ ref, match member "path" ref with
                  | Some (Json.JString s) => Some s
                  | _ => None
                  end)
          (match member "references" tsConfig with
           | Some (Json.JArray refs) => refs
           | _ => []
           end)
  ++ strings_of (member "include" tsNodeConfig)
  ++ match vite_entry args with Some e => [e] | None => [] end.

(** Whether [needle] is found in [hay]. *)
Definition found_in (needle hay : string) : bool :=
  match Str.after_first needle hay with Some _ => true | None => false end.

(** A segment of a normalised path: not empty, not [.], not [..], and
    without a slash. *)
Definition normal_segment (seg : string) : bool :=
  negb (String.eqb seg "") && negb (String.eqb seg ".")
  && negb (String.eqb seg "..") && negb (found_in "/" seg).


(* ===================================================================== *)
(** ** Lemmas on strings *)
(* ===================================================================== *)

Lemma append_nil (b : string) : EmptyString +:+ b = b.
Proof. reflexivity. Qed.

Lemma append_cons (c : ascii) (a b : string) :
  String c a +:+ b = String c (a +:+ b).
Proof. reflexivity. Qed.

Lemma append_assoc (a b c : string) : (a +:+ b) +:+ c = a +:+ (b +:+ c).
Proof.
  induction a as [|x a IH]; [reflexivity|].
  now rewrite !append_cons, IH.
Qed.

Lemma append_empty_r (a : string) : a +:+ EmptyString = a.
Proof.
  induction a as [|x a IH]; [reflexivity|].
  now rewrite append_cons, IH.
Qed.

Lemma contains_suffix (pre needle : string) : Str.contains (pre +:+ needle) needle.
Proof. exists pre, EmptyString. now rewrite append_empty_r. Qed.

Lemma strip_prefix_sound (p s rest : string) :
  Str.strip_prefix p s = Some rest → s = p +:+ rest.
Proof.
  revert s rest; induction p as [|a p IH]; intros s rest; simpl.
  - now intros [= ->].
  - destruct s as [|b s]; [discriminate|].
    destruct (Ascii.eqb_spec a b) as [->|]; [|discriminate].
    intros H. now rewrite append_cons, (IH _ _ H).
Qed.

Lemma after_first_sound (needle s rest : string) :
  Str.after_first needle s = Some rest → ∃ pre, s = pre +:+ needle +:+ rest.
Proof.
  induction s as [|c s IH]; simpl.
  - destruct (Str.strip_prefix needle EmptyString) eqn:E; [|discriminate].
    intros [= ->]. exists EmptyString. rewrite append_nil.
    now apply strip_prefix_sound.
  - destruct (Str.strip_prefix needle (String c s)) eqn:E.
    + intros [= ->]. exists EmptyString. rewrite append_nil.
      now apply strip_prefix_sound.
    + intros H. destruct (IH H) as [pre ->]. exists (String c pre).
      reflexivity.
Qed.

Lemma after_last_app (needle x y rest : string) :
  Str.after_last needle y = Some rest →
  Str.after_last needle (x +:+ y) = Some rest.
Proof.
  intros H. induction x as [|c x IH]; [exact H|].
  rewrite append_cons. simpl. now rewrite IH.
Qed.

Lemma replace_all_dash (s : string) :
  Str.replace_all "-" "_" s = dash_to_underscore s.
Proof.
  induction s as [|c s IH]; simpl; [reflexivity|].
  rewrite IH. destruct (Ascii.eqb c "-"); reflexivity.
Qed.

Lemma dash_to_underscore_length (s : string) :
  String.length (dash_to_underscore s) = String.length s.
Proof. induction s as [|c s IH]; simpl; [reflexivity | now rewrite IH]. Qed.

Lemma dash_to_underscore_get (s : string) (i : nat) :
  String.get i (dash_to_underscore s)
  = (λ c, if Ascii.eqb c "-" then "_"%char else c) <$> String.get i s.
Proof.
  revert i; induction s as [|c s IH]; intros [|i]; simpl; auto.
Qed.

Lemma dash_to_underscore_no_dash (s : string) :
  ¬ Str.occurs "-" (dash_to_underscore s).
Proof.
  intros [i Hi]. rewrite dash_to_underscore_get in Hi.
  destruct (String.get i s) as [c|]; simpl in Hi; [|discriminate].
  destruct (Ascii.eqb c "-") eqn:E; [discriminate|].
  injection Hi as Hc. rewrite Hc, Ascii.eqb_refl in E. discriminate.
Qed.

Lemma take_until_append (stop : ascii) (s rest : string) :
  ¬ Str.occurs stop s →
  Str.take_until stop (s +:+ String stop rest) = s.
Proof.
  induction s as [|c s IH]; intros Hs.
  - rewrite append_nil. simpl. now rewrite Ascii.eqb_refl.
  - rewrite append_cons. simpl. destruct (Ascii.eqb_spec c stop) as [->|_].
    + exfalso. apply Hs. now exists 0.
    + f_equal. apply IH. intros [i Hi]. apply Hs. now exists (S i).
Qed.

(* ===================================================================== *)
(** ** Lemmas on paths and on the file tree *)
(* ===================================================================== *)

Lemma src_index_path (d : path) :
  Path.join (Path.join d "src") "index.tsx" = d ++ ["src"; "index.tsx"].
Proof. unfold Path.join. now rewrite <- app_assoc. Qed.

(** Two paths below [d] with different tails differ; so do [d] and a path
    strictly below it. *)
Ltac path_neq :=
  unfold Path.join; rewrite <- ?app_assoc; simpl;
  let H := fresh in
  intros H;
  first [ apply app_inv_head in H; discriminate H
        | apply (f_equal (@length string)) in H;
          rewrite ?length_app in H; simpl in H; lia ].

Lemma chain_length (base segs q : path) :
  q ∈ Path.chain base segs →
  length base < length q ∧ length q ≤ length base + length segs.
Proof.
  revert base; induction segs as [|s rest IH]; intros base; simpl.
  - intros H. inversion H.
  - intros [->|H]%elem_of_cons.
    + rewrite length_app. simpl. lia.
    + apply IH in H. rewrite length_app in H. simpl in H. lia.
Qed.

Lemma chain_app (base segs : path) (x : string) :
  Path.chain base (segs ++ [x]) = Path.chain base segs ++ [base ++ segs ++ [x]].
Proof.
  revert base; induction segs as [|s rest IH]; intros base; simpl.
  - reflexivity.
  - rewrite IH. now rewrite <- !app_assoc.
Qed.

Lemma chain_self (base segs : path) :
  segs ≠ [] → base ++ segs ∈ Path.chain base segs.
Proof.
  revert base; induction segs as [|s rest IH]; intros base Hne; [done|].
  simpl. destruct rest as [|s' rest].
  - apply elem_of_cons. now left.
  - apply elem_of_cons. right.
    replace (base ++ s :: s' :: rest) with ((base ++ [s]) ++ s' :: rest)
      by now rewrite <- app_assoc.
    now apply IH.
Qed.

Lemma chain_not_below (d : path) (l : list string) :
  l ≠ [] → d ++ l ∉ Path.chain [] d.
Proof.
  intros Hl Hin. apply chain_length in Hin. rewrite length_app in Hin.
  destruct l; [done|]. simpl in Hin. lia.
Qed.

Lemma mkdirs_app (m : gmap path node) (l1 l2 : list path) :
  Fs.mkdirs m (l1 ++ l2)
  = match Fs.mkdirs m l1 with
    | inl e => inl e
    | inr m' => Fs.mkdirs m' l2
    end.
Proof.
  revert m; induction l1 as [|q l1 IH]; intros m; simpl; [reflexivity|].
  destruct (m !! q) as [[|c]|]; auto.
Qed.

Lemma mkdirs_lookup (m m' : gmap path node) (todo : list path) :
  Fs.mkdirs m todo = inr m' →
  (∀ q, q ∈ todo → m' !! q = Some Dir)
  ∧ (∀ p, m' !! p = m !! p ∨ (p ∈ todo ∧ m !! p = None ∧ m' !! p = Some Dir)).
Proof.
  revert m; induction todo as [|q rest IH]; intros m; simpl.
  - intros [= <-]. split; [intros q H; inversion H | auto].
  - destruct (m !! q) as [[|c]|] eqn:Eq; [| discriminate |].
    + intros H. destruct (IH _ H) as [Hdirs Hother]. split.
      * intros p [->|Hp]%elem_of_cons; [|auto].
        destruct (Hother q) as [->|(_ & _ & ?)]; auto.
      * intros p. destruct (Hother p) as [?|(? & ? & ?)]; [auto|].
        right. split; [apply elem_of_cons|]; auto.
    + intros H. destruct (IH _ H) as [Hdirs Hother]. split.
      * intros p [->|Hp]%elem_of_cons; [|auto].
        destruct (Hother q) as [Hq|(_ & _ & ?)]; [|auto].
        now rewrite Hq, lookup_insert_eq.
      * intros p. destruct (Hother p) as [Hp|(Hin & Hnone & Hp)].
        -- destruct (decide (q = p)) as [->|Hne].
           ++ right. rewrite Hp, lookup_insert_eq.
              split; [apply elem_of_cons; auto | auto].
           ++ left. now rewrite Hp, lookup_insert_ne.
        -- right. destruct (decide (q = p)) as [->|Hne].
           ++ now rewrite lookup_insert_eq in Hnone.
           ++ rewrite lookup_insert_ne in Hnone by done.
              split; [apply elem_of_cons|]; auto.
Qed.

Lemma mkdirs_idem (m : gmap path node) (todo : list path) :
  (∀ q, q ∈ todo → m !! q = Some Dir) → Fs.mkdirs m todo = inr m.
Proof.
  induction todo as [|q rest IH]; intros H; simpl; [reflexivity|].
  rewrite (H q) by (apply elem_of_cons; auto).
  apply IH. intros p Hp. apply H, elem_of_cons. auto.
Qed.

(** After [ensureDir d] the directory [d] is there. *)
Lemma mkdirs_stat (m m' : gmap path node) (d : path) :
  Fs.mkdirs m (Path.chain [] d) = inr m' → Fs.stat m' d = Some Dir.
Proof.
  intros H. destruct d as [|s rest]; [reflexivity|].
  unfold Fs.stat. apply (mkdirs_lookup _ _ _ H).
  apply (chain_self [] (s :: rest)). done.
Qed.

Lemma stat_join (m : gmap path node) (d : path) (x : string) :
  Fs.stat m (Path.join d x) = m !! Path.join d x.
Proof. unfold Path.join. destruct d; reflexivity. Qed.

Lemma parent_join (d : path) (x : string) : Path.parent (Path.join d x) = d.
Proof. apply removelast_last. Qed.

Lemma stat_insert_below (m : gmap path node) (d : path) (l : list string) (n : node) :
  l ≠ [] → Fs.stat (<[d ++ l := n]> m) d = Fs.stat m d.
Proof.
  intros Hl. destruct d as [|s rest]; [reflexivity|].
  unfold Fs.stat. apply lookup_insert_ne.
  intros H. apply (f_equal (@length string)) in H.
  rewrite length_app in H. destruct l; [done|]. simpl in H. lia.
Qed.

Lemma write_join (m : gmap path node) (d : path) (x data : string) :
  Fs.stat m d = Some Dir →
  Fs.write (Path.join d x) data m
  = if is_dir (m !! Path.join d x)
    then inl (Fs.EISDIR (Path.join d x))
    else inr (<[Path.join d x := File data]> m).
Proof.
  intros Hd. unfold Fs.write. rewrite parent_join, Hd, stat_join.
  destruct (m !! Path.join d x) as [[|c]|]; reflexivity.
Qed.

Lemma stat_insert_join (m : gmap path node) (d : path) (x : string) (n : node) :
  Fs.stat (<[Path.join d x := n]> m) d = Fs.stat m d.
Proof. unfold Path.join. apply stat_insert_below. done. Qed.

Lemma dirs_made_insert (d : path) (l : list string) (n : node) (m : gmap path node) :
  l ≠ [] → dirs_made d m → dirs_made d (<[d ++ l := n]> m).
Proof.
  intros Hl H q Hq. rewrite lookup_insert_ne; [auto|].
  intros Heq. subst q. now apply (chain_not_below d l).
Qed.

Lemma dirs_made_insert_join (d : path) (x : string) (n : node) (m : gmap path node) :
  dirs_made d m → dirs_made d (<[Path.join d x := n]> m).
Proof. unfold Path.join. apply dirs_made_insert. done. Qed.

Lemma mkdirs_src (m : gmap path node) (d : path) :
  dirs_made d m →
  Fs.mkdirs m (Path.chain [] (Path.join d "src"))
  = match m !! Path.join d "src" with
    | Some (File _) => inl (Fs.EEXIST (Path.join d "src"))
    | _ => inr (<[Path.join d "src" := Dir]> m)
    end.
Proof.
  intros H. unfold Path.join. rewrite chain_app, mkdirs_app.
  rewrite (mkdirs_idem _ _ H). simpl.
  destruct (m !! (d ++ ["src"])) as [[|c]|] eqn:E; try reflexivity.
  now rewrite insert_id.
Qed.

Lemma run_lift {B : Type} (f : gmap path node → exn + gmap path node)
      (k : () → M B) (w : World) :
  (Fs.lift f ≫= k) w
  = match f (files w) with
    | inl e => (Thrown e, w)
    | inr m' => k () (mkWorld m' (spawned w))
    end.
Proof.
  unfold mbind, M_bind, bind, Fs.lift. destruct (f (files w)); reflexivity.
Qed.

Section CreateRuns.

Variable cwd : path.

(** What [handleCreatePlugin] does, by cases on the tree it finds. *)
Lemma handleCreatePlugin_cases (args : CreatePluginArgs) (w : World) :
  let d := Path.resolve cwd (outputPath args) in
  handleCreatePlugin cwd args w
  = match Fs.mkdirs (files w) (Path.chain [] d) with
    | inl e => (Thrown (create_failed e), w)
    | inr m1 => ((create_run args d m1).1,
                 mkWorld (create_run args d m1).2 (spawned w))
    end.
Proof.
  intros d. unfold handleCreatePlugin, try_catch, Fs.ensureDir, writeJSON,
    Fs.writeFile. fold d.
  rewrite run_lift.
  destruct (Fs.mkdirs (files w) (Path.chain [] d)) as [e|m1] eqn:Emk;
    [reflexivity|].
  pose proof (mkdirs_stat _ _ _ Emk) as Hd.
  assert (Hdirs : dirs_made d m1) by (intros q Hq; now apply (mkdirs_lookup _ _ _ Emk)).
  unfold create_run. cbv zeta.
  (* package.json *)
  cbv beta. rewrite run_lift. cbn [files spawned].
  rewrite write_join by exact Hd.
  destruct (is_dir (m1 !! Path.join d "package.json")) eqn:E1; [reflexivity|].
  (* tsconfig.json *)
  cbv beta. rewrite run_lift. cbn [files spawned].
  rewrite write_join by (now rewrite !stat_insert_join).
  rewrite !lookup_insert_ne by path_neq.
  destruct (is_dir (m1 !! Path.join d "tsconfig.json")) eqn:E2; [reflexivity|].
  (* tsconfig.node.json *)
  cbv beta. rewrite run_lift. cbn [files spawned].
  rewrite write_join by (now rewrite !stat_insert_join).
  rewrite !lookup_insert_ne by path_neq.
  destruct (is_dir (m1 !! Path.join d "tsconfig.node.json")) eqn:E3;
    [reflexivity|].
  (* vite.config.ts *)
  cbv beta. rewrite run_lift. cbn [files spawned].
  rewrite write_join by (now rewrite !stat_insert_join).
  rewrite !lookup_insert_ne by path_neq.
  destruct (is_dir (m1 !! Path.join d "vite.config.ts")) eqn:E4; [reflexivity|].
  (* src *)
  cbv beta. rewrite run_lift. cbn [files spawned].
  rewrite mkdirs_src by (now repeat apply dirs_made_insert_join).
  rewrite !lookup_insert_ne by path_neq.
  destruct (m1 !! Path.join d "src") as [[|c]|] eqn:Esrc;
    cbn [is_file]; try reflexivity.
  - (* src is there already *)
    cbv beta. rewrite run_lift. cbn [files spawned].
    rewrite write_join by (unfold Fs.stat, Path.join;
                           destruct d; simpl; apply lookup_insert_eq).
    rewrite !lookup_insert_ne by path_neq.
    destruct (is_dir (m1 !! Path.join (Path.join d "src") "index.tsx")) eqn:E5;
      reflexivity.
  - (* src is made *)
    cbv beta. rewrite run_lift. cbn [files spawned].
    rewrite write_join by (unfold Fs.stat, Path.join;
                           destruct d; simpl; apply lookup_insert_eq).
    rewrite !lookup_insert_ne by path_neq.
    destruct (is_dir (m1 !! Path.join (Path.join d "src") "index.tsx")) eqn:E5;
      reflexivity.
Qed.

End CreateRuns.

Lemma create_run_ok (args : CreatePluginArgs) (d : path) (m1 : gmap path node) :
  scaffold_ok d m1 = true →
  create_run args d m1 = (Returned (created d), scaffold args d m1).
Proof.
  unfold scaffold_ok, generated_files, create_run. cbn [forallb].
  rewrite !andb_true_iff, !negb_true_iff.
  intros [(-> & -> & -> & -> & -> & _) ->]. reflexivity.
Qed.

Lemma create_run_failed (args : CreatePluginArgs) (d : path) (m1 : gmap path node) :
  scaffold_ok d m1 = false → ∃ e, (create_run args d m1).1 = Thrown e.
Proof.
  unfold scaffold_ok, generated_files, create_run. cbn [forallb].
  destruct (is_dir (m1 !! Path.join d "package.json")); [eauto|].
  destruct (is_dir (m1 !! Path.join d "tsconfig.json")); [eauto|].
  destruct (is_dir (m1 !! Path.join d "tsconfig.node.json")); [eauto|].
  destruct (is_dir (m1 !! Path.join d "vite.config.ts")); [eauto|].
  destruct (is_file (m1 !! Path.join d "src")); [eauto|].
  destruct (is_dir (m1 !! Path.join (Path.join d "src") "index.tsx")); [eauto|].
  discriminate.
Qed.

Lemma scaffold_lookup (args : CreatePluginArgs) (d : path) (m : gmap path node)
      (p : path) :
  scaffold args d m !! p
  = if decide (Path.join (Path.join d "src") "index.tsx" = p)
    then Some (File (indexContent args))
    else if decide (Path.join d "src" = p) then Some Dir
    else if decide (Path.join d "vite.config.ts" = p)
    then Some (File (viteConfig args))
    else if decide (Path.join d "tsconfig.node.json" = p)
    then Some (File (writeJSON_text tsNodeConfig))
    else if decide (Path.join d "tsconfig.json" = p)
    then Some (File (writeJSON_text tsConfig))
    else if decide (Path.join d "package.json" = p)
    then Some (File (writeJSON_text (PackageJson_value (packageJson args))))
    else m !! p.
Proof. unfold scaffold. now rewrite !lookup_insert. Qed.

(** Settles the comparisons of paths below one directory. *)
Ltac decide_paths :=
  repeat match goal with
         | |- context [decide (?a = ?b)] =>
             first [ rewrite (decide_True (P := a = b)) by reflexivity
                   | rewrite (decide_False (P := a = b)) by path_neq ]
         end.

Lemma scaffold_idem (args : CreatePluginArgs) (d : path) (m : gmap path node) :
  scaffold args d (scaffold args d m) = scaffold args d m.
Proof.
  apply map_eq. intros p. rewrite !scaffold_lookup.
  repeat case_decide; reflexivity.
Qed.

Lemma scaffold_dirs_made (args : CreatePluginArgs) (d : path) (m : gmap path node) :
  dirs_made d m → dirs_made d (scaffold args d m).
Proof.
  intros H. unfold scaffold. rewrite src_index_path.
  apply dirs_made_insert; [done|].
  now repeat apply dirs_made_insert_join.
Qed.

Lemma scaffold_ok_scaffold (args : CreatePluginArgs) (d : path) (m : gmap path node) :
  scaffold_ok d (scaffold args d m) = true.
Proof.
  unfold scaffold_ok, generated_files. cbn [forallb].
  rewrite !scaffold_lookup. decide_paths. reflexivity.
Qed.

Lemma generated_files_NoDup (d : path) : NoDup (generated_files d).
Proof.
  unfold generated_files.
  repeat (apply NoDup_cons; split;
          [rewrite ?elem_of_cons, elem_of_nil;
           intros H; repeat destruct H as [H|H]; try exact H;
           revert H; path_neq|]).
  apply NoDup_nil. done.
Qed.

Section CreateFacts.

Variable cwd : path.

Lemma handleCreatePlugin_inv (args : CreatePluginArgs) (w w' : World)
      (r : ToolResult) :
  handleCreatePlugin cwd args w = (Returned r, w') →
  let d := Path.resolve cwd (outputPath args) in
  ∃ m1, Fs.mkdirs (files w) (Path.chain [] d) = inr m1
        ∧ scaffold_ok d m1 = true
        ∧ r = created d
        ∧ w' = mkWorld (scaffold args d m1) (spawned w).
Proof.
  intros H d. rewrite handleCreatePlugin_cases in H. fold d in H.
  destruct (Fs.mkdirs (files w) (Path.chain [] d)) as [e|m1]; [discriminate|].
  exists m1. destruct (scaffold_ok d m1) eqn:Eok.
  - rewrite (create_run_ok _ _ _ Eok) in H. injection H as <- <-. auto.
  - destruct (create_run_failed args _ _ Eok) as [e He].
    rewrite He in H. discriminate.
Qed.

Lemma handleCreatePlugin_success (args : CreatePluginArgs) (w : World)
      (m1 : gmap path node) :
  let d := Path.resolve cwd (outputPath args) in
  Fs.mkdirs (files w) (Path.chain [] d) = inr m1 →
  scaffold_ok d m1 = true →
  handleCreatePlugin cwd args w
  = (Returned (created d), mkWorld (scaffold args d m1) (spawned w)).
Proof.
  intros d Hmk Hok. rewrite handleCreatePlugin_cases. fold d.
  now rewrite Hmk, (create_run_ok _ _ _ Hok).
Qed.

End CreateFacts.

Lemma mkdirs_succeeds (m : gmap path node) (todo : list path) :
  (∀ q, q ∈ todo → is_file (m !! q) = false) → ∃ m', Fs.mkdirs m todo = inr m'.
Proof.
  revert m; induction todo as [|q rest IH]; intros m H; simpl; [eauto|].
  pose proof (H q (list_elem_of_here _ _)) as Hq.
  destruct (m !! q) as [[|c]|] eqn:E; [| discriminate |].
  - apply IH. intros p Hp. apply H. now apply list_elem_of_further.
  - apply IH. intros p Hp. rewrite lookup_insert. case_decide; [reflexivity|].
    apply H. now apply list_elem_of_further.
Qed.

(** In a tree where no regular file sits on the way to the output
    directory and nothing lives yet where the scaffold goes, the creation
    succeeds. *)
Lemma create_plugin_succeeds (cwd : path) (args : CreatePluginArgs) (w : World) :
  let d := Path.resolve cwd (outputPath args) in
  (∀ q, q ∈ Path.chain [] d → is_file (files w !! q) = false) →
  (∀ l, l ≠ [] → files w !! (d ++ l) = None) →
  ∃ w', handleCreatePlugin cwd args w = (Returned (created d), w').
Proof.
  intros d Hway Hfresh.
  destruct (mkdirs_succeeds _ _ Hway) as [m1 Hmk].
  assert (Hnone : ∀ l, l ≠ [] → m1 !! (d ++ l) = None).
  { intros l Hl.
    destruct (proj2 (mkdirs_lookup _ _ _ Hmk) (d ++ l)) as [->|(Hin & _)];
      [now apply Hfresh|].
    now apply chain_not_below in Hin. }
  eexists. apply (handleCreatePlugin_success cwd args w m1 Hmk).
  unfold scaffold_ok, generated_files. cbn [forallb].
  rewrite src_index_path. unfold Path.join. now rewrite !Hnone.
Qed.

(* ===================================================================== *)
(** ** The claims *)
(* ===================================================================== *)

(** C1. Without [wallet-connect] among the features, a successful
    [create_plugin] leaves under the resolved output path exactly the five
    files [package.json], [tsconfig.json], [tsconfig.node.json],
    [vite.config.ts] and [src/index.tsx], each with its generated text (the
    package descriptor carrying the three base dependencies only); these
    five paths are distinct; at every other path there is a regular file
    after the call exactly when the same file was there before; no process is
    asked for; and for the name [widget] the source file declares the
    identifier [widget] and its property control defaults to
    [Hello World]. *)
Theorem create_plugin_writes_five_files
        (cwd : path) (args : CreatePluginArgs) (w w' : World) (r : ToolResult) :
  has_wallet_connect args = false →
  handleCreatePlugin cwd args w = (Returned r, w') →
  let d := Path.resolve cwd (outputPath args) in
  files w' !! Path.join d "package.json"
    = Some (File (writeJSON_text (PackageJson_value (packageJson args))))
  ∧ pkg_dependencies (packageJson args) = base_dependencies
  ∧ files w' !! Path.join d "tsconfig.json" = Some (File (writeJSON_text tsConfig))
  ∧ files w' !! Path.join d "tsconfig.node.json"
    = Some (File (writeJSON_text tsNodeConfig))
  ∧ files w' !! Path.join d "vite.config.ts" = Some (File (viteConfig args))
  ∧ files w' !! Path.join (Path.join d "src") "index.tsx"
    = Some (File (indexContent args))
  ∧ NoDup (generated_files d)
  ∧ (∀ p c, p ∉ generated_files d →
            files w' !! p = Some (File c) ↔ files w !! p = Some (File c))
  ∧ spawned w' = spawned w
  ∧ (name args = "widget" →
     exported_identifier (indexContent args) = Some "widget"
     ∧ default_text (indexContent args) = Some "Hello World").
Proof.
  intros Hplain Hrun d.
  destruct (handleCreatePlugin_inv cwd args w w' r Hrun)
    as (m1 & Hmk & Hok & -> & ->).
  fold d in Hmk, Hok. cbn [files spawned]. fold d.
  repeat split.
  - rewrite scaffold_lookup. now decide_paths.
  - unfold packageJson. now rewrite Hplain.
  - rewrite scaffold_lookup. now decide_paths.
  - rewrite scaffold_lookup. now decide_paths.
  - rewrite scaffold_lookup. now decide_paths.
  - rewrite scaffold_lookup. now decide_paths.
  - apply generated_files_NoDup.
  - intros Hfile. rewrite scaffold_lookup in Hfile.
    unfold generated_files in H. rewrite !elem_of_cons, elem_of_nil in H.
    repeat (case_decide; [subst p; try discriminate; exfalso; apply H; tauto|]).
    destruct (proj2 (mkdirs_lookup _ _ _ Hmk) p) as [Hsame|(_ & _ & Hdir)];
      congruence.
  - intros Hfile. rewrite scaffold_lookup.
    unfold generated_files in H. rewrite !elem_of_cons, elem_of_nil in H.
    assert (Hm1 : m1 !! p = Some (File c)).
    { destruct (proj2 (mkdirs_lookup _ _ _ Hmk) p) as [Hsame|(_ & Hnone & _)];
        congruence. }
    repeat (case_decide; [subst p; try (exfalso; apply H; tauto)|]); [|done].
    unfold scaffold_ok in Hok. rewrite Hm1 in Hok. cbn [is_file negb] in Hok.
    now rewrite andb_false_r in Hok.
  - unfold indexContent, component_name. rewrite Hplain, H. vm_compute.
    reflexivity.
  - unfold indexContent, component_name. rewrite Hplain, H. vm_compute.
    reflexivity.
Qed.

Lemma create_plugin_writes_five_files_witness :
  let cwd := ["home"; "user"] in
  let args := mkCreatePluginArgs "widget" "d" "out" None in
  let w := mkWorld ∅ [] in
  let w' := (handleCreatePlugin cwd args w).2 in
  files w' !! ["home"; "user"; "out"; "src"; "index.tsx"]
    = Some (File (indexContent args))
  ∧ exported_identifier (indexContent args) = Some "widget"
  ∧ default_text (indexContent args) = Some "Hello World".
Proof.
  intros cwd args w w'.
  pose proof (create_plugin_writes_five_files cwd args w w'
                (created ["home"; "user"; "out"]) eq_refl) as T.
  assert (Hrun : handleCreatePlugin cwd args w
                 = (Returned (created ["home"; "user"; "out"]), w'))
    by (vm_compute; reflexivity).
  specialize (T Hrun).
  destruct T as (_ & _ & _ & _ & _ & Hidx & _ & _ & _ & Hwidget).
  split; [exact Hidx | exact (Hwidget eq_refl)].
Defined.

(** C2. When the features contain [wallet-connect], the dependencies of
    the generated package descriptor are those of any wallet-less request
    followed by exactly the three entries [@web3-react/core],
    [@web3-react/injected-connector] and [ethers], none of which is a base
    dependency, and the property control of the generated source file
    defaults to [Connect Wallet] where the wallet-less one has
    [Hello World]. *)
Theorem wallet_connect_adds_three_dependencies
        (args plain : CreatePluginArgs) :
  has_wallet_connect args = true →
  has_wallet_connect plain = false →
  pkg_dependencies (packageJson args)
    = pkg_dependencies (packageJson plain) ++ web3_dependencies
  ∧ Json.keys web3_dependencies
    = ["@web3-react/core"; "@web3-react/injected-connector"; "ethers"]
  ∧ NoDup (Json.keys (pkg_dependencies (packageJson args)))
  ∧ member "dependencies" (PackageJson_value (packageJson args))
    = Some (Json.of_record (pkg_dependencies (packageJson plain) ++ web3_dependencies))
  ∧ default_text (indexContent args) = Some "Connect Wallet"
  ∧ default_text (indexContent plain) = Some "Hello World".
Proof.
  intros Hw Hp.
  assert (Hdeps : pkg_dependencies (packageJson args)
                  = base_dependencies ++ web3_dependencies)
    by (unfold packageJson; now rewrite Hw).
  assert (Hbase : pkg_dependencies (packageJson plain) = base_dependencies)
    by (unfold packageJson; now rewrite Hp).
  rewrite Hbase. repeat split.
  - exact Hdeps.
  - rewrite Hdeps. vm_compute.
    repeat (apply NoDup_cons; split;
            [rewrite ?elem_of_cons, elem_of_nil; intros H;
             repeat destruct H as [H|H]; try discriminate H; exact H|]).
    apply NoDup_nil. done.
  - unfold PackageJson_value, member. cbn [List.find fst snd String.eqb].
    simpl. now rewrite Hdeps.
  - unfold default_text, indexContent. rewrite Hw.
    rewrite (after_last_app _ _ _ "Connect Wallet',
  },
});
"); [reflexivity | repeat apply after_last_app; reflexivity].
  - unfold default_text, indexContent. rewrite Hp.
    rewrite (after_last_app _ _ _ "Hello World',
  },
});
"); [reflexivity | repeat apply after_last_app; reflexivity].
Qed.

Lemma wallet_connect_adds_three_dependencies_witness :
  let args := mkCreatePluginArgs "widget" "d" "out"
                (Some ["nft-display"; "wallet-connect"]) in
  Json.keys (pkg_dependencies (packageJson args))
    = ["@framer/framer.motion"; "react"; "react-dom";
       "@web3-react/core"; "@web3-react/injected-connector"; "ethers"]
  ∧ default_text (indexContent args) = Some "Connect Wallet".
Proof.
  intros args.
  destruct (wallet_connect_adds_three_dependencies
              args (mkCreatePluginArgs "widget" "d" "out" None)
              eq_refl eq_refl)
    as (Hdeps & _ & _ & _ & Htext & _).
  split; [now rewrite Hdeps | exact Htext].
Defined.

(** What [handleBuildPlugin] does, by cases on what lives at the resolved
    path and on the outcome of the build command. *)
Lemma handleBuildPlugin_cases
      (cwd : path) (run : string → path → gmap path node → outcome () * gmap path node)
      (args : BuildPluginArgs) (w : World) :
  let d := Path.resolve cwd (pluginPath args) in
  handleBuildPlugin cwd run args w
  = match Fs.stat (files w) d with
    | None =>
        (Thrown (McpError InternalError
                          ("Failed to build plugin: "
                           +:+ "Plugin directory not found: " +:+ Path.str d)), w)
    | Some _ =>
        let log := spawned w ++ [("npm run build", d)] in
        match run "npm run build" d (files w) with
        | (Returned _, m') => (Returned (built d), mkWorld m' log)
        | (Thrown e, m') =>
            (Thrown (McpError InternalError
                              ("Failed to build plugin: " +:+ exn_message e)),
             mkWorld m' log)
        end
    end.
Proof.
  intros d. unfold handleBuildPlugin, try_catch, Fs.pathExists, execSync.
  fold d. unfold mbind, M_bind, bind, throw, mret, M_ret, ret.
  destruct (Fs.stat (files w) d) as [n|] eqn:E; cbn.
  - destruct (run "npm run build" d (files w)) as [[[]|e] m']; reflexivity.
  - reflexivity.
Qed.

(** The part of C3 the code keeps: when nothing lives at the resolved path,
    [build_plugin] fails with the internal error naming that path, asks
    for no process and leaves the tree alone. *)
Lemma build_plugin_missing_path
      (cwd : path) (run : string → path → gmap path node → outcome () * gmap path node)
      (args : BuildPluginArgs) (w : World) :
  let d := Path.resolve cwd (pluginPath args) in
  Fs.stat (files w) d = None →
  ∃ msg, handleBuildPlugin cwd run args w = (Thrown (McpError InternalError msg), w)
         ∧ Str.contains msg ("Plugin directory not found: " +:+ Path.str d)
         ∧ Str.contains msg (Path.str d)
         ∧ Str.contains msg "not found".
Proof.
  intros d Hnone. eexists. split.
  - rewrite handleBuildPlugin_cases. fold d. now rewrite Hnone.
  - split; [apply contains_suffix|]. split.
    + rewrite <- append_assoc. apply contains_suffix.
    + exists "Failed to build plugin: Plugin directory ", (": " +:+ Path.str d).
      reflexivity.
Qed.

(** When a regular file lives at the resolved path the check lets the call
    through: [execSync] is asked to run the build there, and the result is
    whatever that gives. *)
Lemma build_plugin_regular_file
      (cwd : path) (run : string → path → gmap path node → outcome () * gmap path node)
      (args : BuildPluginArgs) (w : World) (c : string) :
  let d := Path.resolve cwd (pluginPath args) in
  Fs.stat (files w) d = Some (File c) →
  spawned (handleBuildPlugin cwd run args w).2
  = spawned w ++ [("npm run build", d)]
  ∧ (∀ e, (run "npm run build" d (files w)).1 = Thrown e →
          (handleBuildPlugin cwd run args w).1
          = Thrown (McpError InternalError
                             ("Failed to build plugin: " +:+ exn_message e))).
Proof.
  intros d Hfile. rewrite handleBuildPlugin_cases. fold d. rewrite Hfile.
  destruct (run "npm run build" d (files w)) as [[[]|e] m']; cbn.
  - split; [reflexivity | discriminate].
  - split; [reflexivity | now intros ? [= <-]].
Qed.

(** C3, at an input where the code departs from it: [/proj/notes.txt] is a
    regular file, not a directory, yet [build_plugin] does not answer
    [Plugin directory not found]; it asks for the build command to be run
    there and reports the failure of the spawn instead. *)
Theorem build_plugin_accepts_regular_file :
  let w := mkWorld {[ ["proj"] := Dir; ["proj"; "notes.txt"] := File "x" ]} [] in
  let args := mkBuildPluginArgs "/proj/notes.txt" in
  Fs.stat (files w) (Path.resolve [] (pluginPath args)) = Some (File "x")
  ∧ handleBuildPlugin [] posix_run args w
    = (Thrown (McpError InternalError
                        "Failed to build plugin: spawnSync /bin/sh ENOTDIR"),
       mkWorld (files w) [("npm run build", ["proj"; "notes.txt"])])
  ∧ Str.after_first "not found"
      "Failed to build plugin: spawnSync /bin/sh ENOTDIR" = None.
Proof. vm_compute. repeat split. Qed.

(** C4. A call whose tool name is neither [create_plugin] nor
    [build_plugin] throws the method-not-found error [Unknown tool: <name>],
    whose message contains that name; whatever the arguments and whatever
    the build command would do, the world is left as it was: no file is
    written and no process is asked for. *)
Theorem unknown_tool_rejected
        (cwd : path) (run : string → path → gmap path node → outcome () * gmap path node)
        (tool : string) (arguments : Arguments) (w : World) :
  tool ≠ "create_plugin" →
  tool ≠ "build_plugin" →
  callTool cwd run tool arguments w
    = (Thrown (McpError MethodNotFound ("Unknown tool: " +:+ tool)), w)
  ∧ Str.contains ("Unknown tool: " +:+ tool) tool.
Proof.
  intros Hc Hb. split; [|apply contains_suffix].
  unfold callTool.
  destruct (String.eqb_spec tool "create_plugin") as [?|_]; [done|].
  destruct (String.eqb_spec tool "build_plugin") as [?|_]; [done|].
  reflexivity.
Qed.

Lemma unknown_tool_rejected_witness :
  callTool ["home"] posix_run "delete_plugin"
           (BuildArguments (mkBuildPluginArgs "/proj")) (mkWorld ∅ [])
  = (Thrown (McpError MethodNotFound "Unknown tool: delete_plugin"), mkWorld ∅ []).
Proof.
  apply (unknown_tool_rejected ["home"] posix_run "delete_plugin");
    discriminate.
Defined.

(** C8. [listTools] answers, in any world and leaving it as it is, one
    fixed list of two descriptors: [create_plugin] (requiring [name],
    [description] and [outputPath], its features drawn from the three
    flags) and then [build_plugin] (requiring [pluginPath]); two calls in a
    row give the same list. *)
Theorem listTools_static :
  ∃ create build : Tool,
    (∀ w, listTools w = (Returned [create; build], w))
    ∧ (∀ w, (listTools ≫= λ first, listTools ≫= λ second, mret (first, second)) w
            = (Returned ([create; build], [create; build]), w))
    ∧ tool_name create = "create_plugin"
    ∧ tool_name build = "build_plugin"
    ∧ tool_description create
      = "Create a new Framer plugin project with web3 capabilities"
    ∧ tool_description build = "Build a Framer plugin project"
    ∧ strings_of (member "required" (inputSchema create))
      = ["name"; "description"; "outputPath"]
    ∧ strings_of (((member "properties" (inputSchema create)
                      ≫= member "web3Features") ≫= member "items") ≫= member "enum")
      = ["wallet-connect"; "contract-interaction"; "nft-display"]
    ∧ strings_of (member "required" (inputSchema build)) = ["pluginPath"].
Proof. do 2 eexists. repeat split. Qed.

(** C9. A handler that returns gives exactly one text block, and its text
    contains the resolved absolute path: the output path for
    [create_plugin], the plugin path for [build_plugin]. *)
Theorem success_message_contains_path
        (cwd : path) (run : string → path → gmap path node → outcome () * gmap path node) :
  (∀ args w r w',
     handleCreatePlugin cwd args w = (Returned r, w') →
     ∃ text, content r = [TextBlock text]
             ∧ Str.contains text (Path.str (Path.resolve cwd (outputPath args))))
  ∧ (∀ args w r w',
       handleBuildPlugin cwd run args w = (Returned r, w') →
       ∃ text, content r = [TextBlock text]
               ∧ Str.contains text (Path.str (Path.resolve cwd (pluginPath args)))).
Proof.
  split.
  - intros args w r w' H.
    destruct (handleCreatePlugin_inv cwd args w w' r H) as (m1 & _ & _ & -> & _).
    eexists. split; [reflexivity | apply contains_suffix].
  - intros args w r w' H. rewrite handleBuildPlugin_cases in H.
    destruct (Fs.stat (files w) (Path.resolve cwd (pluginPath args)));
      [|discriminate].
    cbv zeta in H.
    destruct (run "npm run build" _ (files w)) as [[[]|e] m']; [|discriminate].
    injection H as <- _.
    eexists. split; [reflexivity | apply contains_suffix].
Qed.

Lemma success_message_contains_path_witness :
  let cwd := ["home"; "user"] in
  let w := mkWorld ∅ [] in
  let w' := (handleCreatePlugin cwd (mkCreatePluginArgs "widget" "d" "out" None) w).2 in
  (∃ text, content (created ["home"; "user"; "out"]) = [TextBlock text]
           ∧ Str.contains text "/home/user/out")
  ∧ (∃ text, content (built ["home"; "user"; "out"]) = [TextBlock text]
             ∧ Str.contains text "/home/user/out").
Proof.
  intros cwd w w'.
  destruct (success_message_contains_path cwd posix_run) as [Hcreate Hbuild].
  split.
  - apply (Hcreate (mkCreatePluginArgs "widget" "d" "out" None) w _ w').
    vm_compute. reflexivity.
  - apply (Hbuild (mkBuildPluginArgs "../user/out") w' _
                  (mkWorld (files w') [("npm run build", ["home"; "user"; "out"])])).
    vm_compute. reflexivity.
Defined.

Lemma indexContent_after_export (args : CreatePluginArgs) :
  Str.after_first "export default function " (indexContent args)
  = Some (dash_to_underscore (name args) +:+ "() {"
          +:+ variant_body (has_wallet_connect args)
          +:+ "addPropertyControls(" +:+ dash_to_underscore (name args)
          +:+ ", {" +:+ variant_tail (has_wallet_connect args)).
Proof.
  unfold indexContent, component_name. rewrite replace_all_dash.
  generalize (dash_to_underscore (name args)). intros ident.
  destruct (has_wallet_connect args); vm_compute; reflexivity.
Qed.

(** With a name free of opening parentheses, the identifier read back from
    the source file is the name with its dashes replaced. *)
Lemma exported_identifier_read_back (args : CreatePluginArgs) :
  ¬ Str.occurs "(" (name args) →
  exported_identifier (indexContent args) = Some (dash_to_underscore (name args)).
Proof.
  intros Hparen. unfold exported_identifier.
  rewrite indexContent_after_export. cbn [fmap option_fmap option_map].
  f_equal. apply (take_until_append "(" _ _).
  intros [i Hi]. rewrite dash_to_underscore_get in Hi.
  destruct (String.get i (name args)) as [c|] eqn:E; [|discriminate].
  cbn in Hi. destruct (Ascii.eqb c "-") eqn:Ec; [discriminate|].
  injection Hi as ->. apply Hparen. now exists i.
Qed.

Example exported_identifier_my_cool_plugin :
  exported_identifier
    (indexContent (mkCreatePluginArgs "my-cool-plugin" "d" "out" None))
  = Some "my_cool_plugin"
  ∧ exported_identifier
      (indexContent (mkCreatePluginArgs "my-cool-plugin" "d" "out"
                       (Some ["wallet-connect"])))
    = Some "my_cool_plugin".
Proof. vm_compute. split; reflexivity. Qed.

(** C5. In both variants of the generated source file, the text after the
    first [export default function ] is the request's name with every dash
    replaced by an underscore (what [replace(/-/g, '_')] computes: the
    same characters, each dash turned into an underscore), followed by
    [() {], a body that depends on the variant only, and the
    [addPropertyControls(] call on that same identifier. *)
Theorem exported_identifier_replaces_dashes :
  ∃ body tail : bool → string,
    ∀ args : CreatePluginArgs,
      component_name args = dash_to_underscore (name args)
      ∧ (∀ i, String.get i (component_name args)
              = (λ c, if Ascii.eqb c "-" then "_"%char else c)
                  <$> String.get i (name args))
      ∧ Str.after_first "export default function " (indexContent args)
        = Some (dash_to_underscore (name args) +:+ "() {"
                +:+ body (has_wallet_connect args)
                +:+ "addPropertyControls(" +:+ dash_to_underscore (name args)
                +:+ ", {" +:+ tail (has_wallet_connect args)).
Proof.
  exists variant_body, variant_tail.
  intros args. split; [apply replace_all_dash|]. split.
  - intros i. unfold component_name.
    now rewrite replace_all_dash, dash_to_underscore_get.
  - apply indexContent_after_export.
Qed.

(** C6. When [create_plugin] has succeeded, the same call made again on the
    tree it left succeeds too, with the same answer, and leaves every path
    as it was: the five files are there with the text of the first
    call. *)
Theorem create_plugin_twice
        (cwd : path) (args : CreatePluginArgs) (w w1 : World) (r : ToolResult) :
  handleCreatePlugin cwd args w = (Returned r, w1) →
  handleCreatePlugin cwd args w1 = (Returned r, w1)
  ∧ (∀ p, p ∈ generated_files (Path.resolve cwd (outputPath args)) →
          is_file (files w1 !! p) = true).
Proof.
  intros Hrun.
  destruct (handleCreatePlugin_inv cwd args w w1 r Hrun)
    as (m1 & Hmk & Hok & -> & ->).
  set (d := Path.resolve cwd (outputPath args)) in *.
  assert (Hdirs : dirs_made d m1)
    by (intros q Hq; now apply (mkdirs_lookup _ _ _ Hmk)).
  split.
  - rewrite (handleCreatePlugin_success cwd args _ (scaffold args d m1)).
    + cbn [files spawned]. fold d. now rewrite scaffold_idem.
    + cbn [files]. fold d. apply mkdirs_idem. now apply scaffold_dirs_made.
    + apply scaffold_ok_scaffold.
  - intros p Hp. cbn [files]. unfold generated_files in Hp.
    rewrite !elem_of_cons, elem_of_nil in Hp. rewrite scaffold_lookup.
    destruct Hp as [->|[->|[->|[->|[->|[]]]]]]; now decide_paths.
Qed.

Lemma create_plugin_twice_witness :
  let cwd := ["home"; "user"] in
  let args := mkCreatePluginArgs "my-cool-plugin" "d" "./out"
                (Some ["wallet-connect"]) in
  let w1 := (handleCreatePlugin cwd args (mkWorld ∅ [])).2 in
  handleCreatePlugin cwd args w1 = (Returned (created ["home"; "user"; "out"]), w1).
Proof.
  intros cwd args w1.
  apply (create_plugin_twice cwd args (mkWorld ∅ []) w1).
  vm_compute. reflexivity.
Defined.

(** C7. Two requests with the same name, description and output path whose
    features differ at most in the presence of [contract-interaction] and
    [nft-display] get the same generated texts, and [create_plugin] does
    the same on them in every world: same answer, same tree. *)
Theorem other_features_have_no_effect
        (cwd : path) (args1 args2 : CreatePluginArgs) :
  name args1 = name args2 →
  description args1 = description args2 →
  outputPath args1 = outputPath args2 →
  (∀ feature, feature ≠ "contract-interaction" → feature ≠ "nft-display" →
              feature_present args1 feature = feature_present args2 feature) →
  packageJson args1 = packageJson args2
  ∧ viteConfig args1 = viteConfig args2
  ∧ indexContent args1 = indexContent args2
  ∧ (∀ w, handleCreatePlugin cwd args1 w = handleCreatePlugin cwd args2 w).
Proof.
  intros Hname Hdesc Hout Hfeat.
  assert (Hwallet : has_wallet_connect args1 = has_wallet_connect args2)
    by (apply (Hfeat "wallet-connect"); discriminate).
  assert (Hpkg : packageJson args1 = packageJson args2)
    by (unfold packageJson; now rewrite Hname, Hdesc, Hwallet).
  assert (Hvite : viteConfig args1 = viteConfig args2)
    by (unfold viteConfig; now rewrite Hname).
  assert (Hidx : indexContent args1 = indexContent args2)
    by (unfold indexContent, component_name; now rewrite Hname, Hwallet).
  repeat split; try assumption.
  intros w. unfold handleCreatePlugin. now rewrite Hout, Hpkg, Hvite, Hidx.
Qed.

Lemma other_features_have_no_effect_witness :
  let args1 := mkCreatePluginArgs "widget" "d" "out"
                 (Some ["wallet-connect"; "nft-display"]) in
  let args2 := mkCreatePluginArgs "widget" "d" "out"
                 (Some ["contract-interaction"; "wallet-connect"]) in
  indexContent args1 = indexContent args2
  ∧ handleCreatePlugin ["home"] args1 (mkWorld ∅ [])
    = handleCreatePlugin ["home"] args2 (mkWorld ∅ []).
Proof.
  intros args1 args2.
  assert (Hfeat : ∀ feature,
             feature ≠ "contract-interaction" → feature ≠ "nft-display" →
             feature_present args1 feature = feature_present args2 feature).
  { intros feature Hc Hn. unfold feature_present, includes, args1, args2.
    cbn [web3Features existsb].
    destruct (String.eqb_spec "nft-display" feature); [congruence|].
    destruct (String.eqb_spec "contract-interaction" feature); [congruence|].
    now rewrite !orb_false_r. }
  destruct (other_features_have_no_effect ["home"] args1 args2
              eq_refl eq_refl eq_refl Hfeat) as (_ & _ & Hidx & Hrun).
  split; [exact Hidx | apply Hrun].
Defined.

(** C10. Two requests that differ in their description only get the same
    [vite.config.ts] and [src/index.tsx] (the two compiler configurations
    never depend on the request); their package descriptors agree on every
    field but [description], and the two texts of [package.json] are one
    text around the quoted description; in every world [create_plugin]
    answers the same on both and leaves trees that agree at every path but
    [package.json]. *)
Theorem description_only_in_package_json
        (cwd : path) (args1 args2 : CreatePluginArgs) :
  name args1 = name args2 →
  outputPath args1 = outputPath args2 →
  web3Features args1 = web3Features args2 →
  viteConfig args1 = viteConfig args2
  ∧ indexContent args1 = indexContent args2
  ∧ (pkg_name (packageJson args1) = pkg_name (packageJson args2)
     ∧ pkg_version (packageJson args1) = pkg_version (packageJson args2)
     ∧ pkg_main (packageJson args1) = pkg_main (packageJson args2)
     ∧ pkg_scripts (packageJson args1) = pkg_scripts (packageJson args2)
     ∧ pkg_dependencies (packageJson args1) = pkg_dependencies (packageJson args2)
     ∧ pkg_devDependencies (packageJson args1)
       = pkg_devDependencies (packageJson args2))
  ∧ (∃ pre post,
        writeJSON_text (PackageJson_value (packageJson args1))
        = pre +:+ Json.quote (description args1) +:+ post
        ∧ writeJSON_text (PackageJson_value (packageJson args2))
          = pre +:+ Json.quote (description args2) +:+ post)
  ∧ (∀ w,
        (handleCreatePlugin cwd args1 w).1 = (handleCreatePlugin cwd args2 w).1
        ∧ spawned (handleCreatePlugin cwd args1 w).2
          = spawned (handleCreatePlugin cwd args2 w).2
        ∧ ∀ p, p ≠ Path.join (Path.resolve cwd (outputPath args1)) "package.json" →
               files (handleCreatePlugin cwd args1 w).2 !! p
               = files (handleCreatePlugin cwd args2 w).2 !! p).
Proof.
  destruct args1 as [n d1 o f], args2 as [n2 d2 o2 f2].
  cbn [name outputPath web3Features description].
  intros <- <- <-.
  assert (Hvite : viteConfig (mkCreatePluginArgs n d1 o f)
                  = viteConfig (mkCreatePluginArgs n d2 o f)) by reflexivity.
  assert (Hidx : indexContent (mkCreatePluginArgs n d1 o f)
                 = indexContent (mkCreatePluginArgs n d2 o f)) by reflexivity.
  split; [exact Hvite|]. split; [exact Hidx|]. split; [|split].
  - unfold packageJson, has_wallet_connect. cbn [web3Features].
    destruct (match f with Some l => includes l "wallet-connect" | None => false end);
      repeat split.
  - unfold writeJSON_text, Json.stringify, PackageJson_value, packageJson,
      has_wallet_connect.
    cbn [web3Features].
    exists ("{" +:+ Json.nl +:+ "  " +:+ Json.quote "name" +:+ ": " +:+ Json.quote n
            +:+ "," +:+ Json.nl
            +:+ "  " +:+ Json.quote "version" +:+ ": " +:+ Json.quote "1.0.0"
            +:+ "," +:+ Json.nl
            +:+ "  " +:+ Json.quote "description" +:+ ": ").
    destruct (match f with Some l => includes l "wallet-connect" | None => false end);
      cbn [Json.stringify_at List.map Str.join pkg_name pkg_version
             pkg_description pkg_main pkg_scripts pkg_dependencies
             pkg_devDependencies name description];
      eexists; rewrite !append_assoc; split; reflexivity.
  - intros w. rewrite !handleCreatePlugin_cases. cbn [outputPath].
    set (d := Path.resolve cwd o).
    destruct (Fs.mkdirs (files w) (Path.chain [] d)) as [e|m1];
      [repeat split|].
    cbn [fst snd files spawned]. unfold create_run. rewrite Hvite, Hidx.
    destruct (is_dir (m1 !! Path.join d "package.json")); [repeat split|].
    destruct (is_dir (m1 !! Path.join d "tsconfig.json"));
      [repeat split; intros p Hp; cbn [snd]; now rewrite !lookup_insert_ne|].
    destruct (is_dir (m1 !! Path.join d "tsconfig.node.json"));
      [repeat split; intros p Hp; cbn [snd]; rewrite !lookup_insert;
       repeat case_decide; congruence|].
    destruct (is_dir (m1 !! Path.join d "vite.config.ts"));
      [repeat split; intros p Hp; cbn [snd]; rewrite !lookup_insert;
       repeat case_decide; congruence|].
    destruct (is_file (m1 !! Path.join d "src"));
      [repeat split; intros p Hp; cbn [snd]; rewrite !lookup_insert;
       repeat case_decide; congruence|].
    destruct (is_dir (m1 !! Path.join (Path.join d "src") "index.tsx"));
      repeat split; intros p Hp; cbn [snd]; rewrite !lookup_insert;
      repeat case_decide; congruence.
Qed.

Lemma description_only_in_package_json_witness :
  let cwd := ["home"; "user"] in
  let args1 := mkCreatePluginArgs "widget" "first" "out" None in
  let args2 := mkCreatePluginArgs "widget" "second" "out" None in
  let w := mkWorld ∅ [] in
  indexContent args1 = indexContent args2
  ∧ files (handleCreatePlugin cwd args1 w).2 !! ["home"; "user"; "out"; "vite.config.ts"]
    = files (handleCreatePlugin cwd args2 w).2 !! ["home"; "user"; "out"; "vite.config.ts"].
Proof.
  intros cwd args1 args2 w.
  destruct (description_only_in_package_json cwd args1 args2
              eq_refl eq_refl eq_refl) as (_ & Hidx & _ & _ & Hrun).
  split; [exact Hidx|].
  apply (Hrun w). discriminate.
Defined.

(* ===================================================================== *)
(** ** Further properties of the handlers *)
(* ===================================================================== *)

Lemma mkdirs_no_file (m m' : gmap path node) (todo : list path) :
  Fs.mkdirs m todo = inr m' → ∀ q, q ∈ todo → is_file (m !! q) = false.
Proof.
  revert m; induction todo as [|q rest IH]; intros m; simpl.
  - intros _ q H. inversion H.
  - destruct (m !! q) as [[|c]|] eqn:Eq; [| discriminate |];
      intros H p [->|Hp]%elem_of_cons.
    + now rewrite Eq.
    + now apply (IH _ H).
    + now rewrite Eq.
    + pose proof (IH _ H p Hp) as Hfile.
      rewrite lookup_insert in Hfile. case_decide; [|done].
      subst p. now rewrite Eq.
Qed.

Lemma mkdirs_below (m m' : gmap path node) (d : path) (l : list string) :
  Fs.mkdirs m (Path.chain [] d) = inr m' → l ≠ [] → m' !! (d ++ l) = m !! (d ++ l).
Proof.
  intros Hmk Hl.
  destruct (proj2 (mkdirs_lookup _ _ _ Hmk) (d ++ l)) as [->|(Hin & _)]; [done|].
  now apply chain_not_below in Hin.
Qed.

Lemma mkdirs_keeps (m m' : gmap path node) (todo : list path) (p : path) (n : node) :
  Fs.mkdirs m todo = inr m' → m !! p = Some n → m' !! p = Some n.
Proof.
  intros Hmk Hp.
  destruct (proj2 (mkdirs_lookup _ _ _ Hmk) p) as [->|(_ & Hnone & _)];
    congruence.
Qed.


Lemma create_run_outcome (args : CreatePluginArgs) (d : path) (m1 : gmap path node) :
  (create_run args d m1).1 = Returned (created d)
  ∨ ∃ e, (create_run args d m1).1 = Thrown (create_failed e).
Proof.
  unfold create_run.
  repeat match goal with
         | |- context [if ?b then _ else _] => destruct b; [right; eexists; reflexivity|]
         end.
  now left.
Qed.

(** Membership in a list written out. *)
Ltac in_list :=
  solve [repeat first [apply list_elem_of_here | apply list_elem_of_further]].

Lemma create_run_keeps (args : CreatePluginArgs) (d : path) (m1 : gmap path node)
      (p : path) (n : node) :
  m1 !! p = Some n →
  n = Dir ∨ p ∉ generated_files d →
  (create_run args d m1).2 !! p = Some n.
Proof.
  intros Hp Hkeep.
  assert (Hne : ∀ g, g ∈ generated_files d → is_dir (m1 !! g) = false → g ≠ p).
  { intros g Hg Hdir ->. destruct Hkeep as [->|Hout]; [|done].
    now rewrite Hp in Hdir. }
  assert (Hsrc : is_file (m1 !! Path.join d "src") = false →
                 Path.join d "src" = p → n = Dir).
  { intros Hfile <-. rewrite Hp in Hfile. now destruct n. }
  unfold generated_files in Hne. unfold create_run.
  destruct (is_dir (m1 !! Path.join d "package.json")) eqn:E1; [exact Hp|].
  destruct (is_dir (m1 !! Path.join d "tsconfig.json")) eqn:E2;
    [cbn [snd]; rewrite !lookup_insert_ne; [exact Hp|..];
     apply Hne; [in_list | assumption]|].
  destruct (is_dir (m1 !! Path.join d "tsconfig.node.json")) eqn:E3;
    [cbn [snd]; rewrite !lookup_insert_ne; [exact Hp|..];
     apply Hne; solve [in_list | assumption]|].
  destruct (is_dir (m1 !! Path.join d "vite.config.ts")) eqn:E4;
    [cbn [snd]; rewrite !lookup_insert_ne; [exact Hp|..];
     apply Hne; solve [in_list | assumption]|].
  destruct (is_file (m1 !! Path.join d "src")) eqn:E5;
    [cbn [snd]; rewrite !lookup_insert_ne; [exact Hp|..];
     apply Hne; solve [in_list | assumption]|].
  assert (Hrest : <[Path.join d "src" := Dir]>
                    (<[Path.join d "vite.config.ts" := File (viteConfig args)]>
                       (<[Path.join d "tsconfig.node.json" := File (writeJSON_text tsNodeConfig)]>
                          (<[Path.join d "tsconfig.json" := File (writeJSON_text tsConfig)]>
                             (<[Path.join d "package.json" :=
                                  File (writeJSON_text (PackageJson_value (packageJson args)))]> m1))))
                  !! p = Some n).
  { rewrite lookup_insert. case_decide as Hs; [now rewrite (Hsrc eq_refl Hs)|].
    rewrite !lookup_insert_ne; [exact Hp|..]; apply Hne;
      solve [in_list | assumption]. }
  destruct (is_dir (m1 !! Path.join (Path.join d "src") "index.tsx")) eqn:E6;
    cbn [snd]; [exact Hrest|].
  rewrite lookup_insert_ne; [exact Hrest|].
  apply Hne; [in_list | assumption].
Qed.

Lemma handleCreatePlugin_outcome (cwd : path) (args : CreatePluginArgs) (w : World) :
  (handleCreatePlugin cwd args w).1
    = Returned (created (Path.resolve cwd (outputPath args)))
  ∨ ∃ e, (handleCreatePlugin cwd args w).1 = Thrown (create_failed e).
Proof.
  rewrite handleCreatePlugin_cases.
  destruct (Fs.mkdirs (files w) _) as [e|m1]; [right; now exists e|].
  apply create_run_outcome.
Qed.

Lemma handleCreatePlugin_spawned (cwd : path) (args : CreatePluginArgs) (w : World) :
  spawned (handleCreatePlugin cwd args w).2 = spawned w.
Proof.
  rewrite handleCreatePlugin_cases.
  now destruct (Fs.mkdirs (files w) _) as [e|m1].
Qed.


Lemma scaffold_scaffold (args1 args2 : CreatePluginArgs) (d : path)
      (m : gmap path node) :
  scaffold args2 d (scaffold args1 d m) = scaffold args2 d m.
Proof.
  apply map_eq. intros p. rewrite !scaffold_lookup.
  repeat case_decide; reflexivity.
Qed.

(** X1. Whatever the request and the tree, [create_plugin] either returns
    its confirmation or throws an internal error whose message is
    [Failed to create plugin: ] followed by the message of the error that
    stopped it; it never asks for a process. *)
Theorem create_plugin_outcomes (cwd : path) (args : CreatePluginArgs) (w : World) :
  ((handleCreatePlugin cwd args w).1
     = Returned (created (Path.resolve cwd (outputPath args)))
   ∨ ∃ e, (handleCreatePlugin cwd args w).1
          = Thrown (McpError InternalError
                             ("Failed to create plugin: " +:+ exn_message e)))
  ∧ spawned (handleCreatePlugin cwd args w).2 = spawned w.
Proof.
  split; [apply handleCreatePlugin_outcome | apply handleCreatePlugin_spawned].
Qed.

(** X2. Whether it succeeds or fails, [create_plugin] keeps what the tree
    held: a directory stays a directory at every path, and a regular file
    at any path other than the five generated ones stays as it was. *)
Theorem create_plugin_keeps_tree
        (cwd : path) (args : CreatePluginArgs) (w : World) (p : path) (n : node) :
  files w !! p = Some n →
  n = Dir ∨ p ∉ generated_files (Path.resolve cwd (outputPath args)) →
  files (handleCreatePlugin cwd args w).2 !! p = Some n.
Proof.
  intros Hp Hkeep. rewrite handleCreatePlugin_cases.
  destruct (Fs.mkdirs (files w) _) as [e|m1] eqn:Emk; [exact Hp|].
  cbn [snd files]. apply create_run_keeps; [|exact Hkeep].
  exact (mkdirs_keeps _ _ _ _ _ Emk Hp).
Qed.

Lemma create_plugin_keeps_tree_witness :
  let w := mkWorld {[ ["home"] := Dir;
                      ["home"; "out"] := Dir;
                      ["home"; "out"; "README.md"] := File "notes" ]} [] in
  files (handleCreatePlugin ["home"] (mkCreatePluginArgs "widget" "d" "out" None) w).2
    !! ["home"; "out"; "README.md"]
  = Some (File "notes").
Proof.
  intros w.
  apply (create_plugin_keeps_tree ["home"] _ w); [reflexivity|].
  right. unfold generated_files. rewrite !elem_of_cons, elem_of_nil.
  intros H. repeat destruct H as [H|H]; try (vm_compute in H; discriminate H).
  exact H.
Defined.


(** X4. When a regular file sits at the output directory or at one of its
    ancestors, [create_plugin] fails with an internal error and writes
    nothing: the world is left as it was. *)
Theorem create_plugin_blocked_by_file
        (cwd : path) (args : CreatePluginArgs) (w : World) (q : path) :
  q ∈ Path.chain [] (Path.resolve cwd (outputPath args)) →
  is_file (files w !! q) = true →
  ∃ e, handleCreatePlugin cwd args w
       = (Thrown (McpError InternalError
                           ("Failed to create plugin: " +:+ exn_message e)), w).
Proof.
  intros Hq Hfile. rewrite handleCreatePlugin_cases.
  destruct (Fs.mkdirs (files w) _) as [e|m1] eqn:Emk; [now exists e|].
  rewrite (mkdirs_no_file _ _ _ Emk q Hq) in Hfile. discriminate.
Qed.

Lemma create_plugin_blocked_by_file_witness :
  let w := mkWorld {[ ["home"] := Dir; ["home"; "out"] := File "x" ]} [] in
  ∃ e, handleCreatePlugin ["home"] (mkCreatePluginArgs "widget" "d" "out/plugin" None) w
       = (Thrown (McpError InternalError
                           ("Failed to create plugin: " +:+ exn_message e)), w).
Proof.
  intros w.
  apply (create_plugin_blocked_by_file ["home"] _ w ["home"; "out"]);
    [vm_compute; in_list | reflexivity].
Defined.

(** X5. Nothing is rolled back.  When the output directory can be made and
    the four files of the project root can be written but [src] is a
    regular file, [create_plugin] fails with an internal error after having
    written [package.json], [tsconfig.json], [tsconfig.node.json] and
    [vite.config.ts], which stay; [src] and [src/index.tsx] are left as
    they were. *)
Theorem create_plugin_no_rollback
        (cwd : path) (args : CreatePluginArgs) (w : World) :
  let d := Path.resolve cwd (outputPath args) in
  (∀ q, q ∈ Path.chain [] d → is_file (files w !! q) = false) →
  is_dir (files w !! Path.join d "package.json") = false →
  is_dir (files w !! Path.join d "tsconfig.json") = false →
  is_dir (files w !! Path.join d "tsconfig.node.json") = false →
  is_dir (files w !! Path.join d "vite.config.ts") = false →
  is_file (files w !! Path.join d "src") = true →
  let w' := (handleCreatePlugin cwd args w).2 in
  (∃ e, (handleCreatePlugin cwd args w).1
        = Thrown (McpError InternalError
                           ("Failed to create plugin: " +:+ exn_message e)))
  ∧ files w' !! Path.join d "package.json"
    = Some (File (writeJSON_text (PackageJson_value (packageJson args))))
  ∧ files w' !! Path.join d "tsconfig.json" = Some (File (writeJSON_text tsConfig))
  ∧ files w' !! Path.join d "tsconfig.node.json"
    = Some (File (writeJSON_text tsNodeConfig))
  ∧ files w' !! Path.join d "vite.config.ts" = Some (File (viteConfig args))
  ∧ files w' !! Path.join d "src" = files w !! Path.join d "src"
  ∧ files w' !! Path.join (Path.join d "src") "index.tsx"
    = files w !! Path.join (Path.join d "src") "index.tsx".
Proof.
  intros d Hway H1 H2 H3 H4 Hsrc w'. subst w'.
  destruct (mkdirs_succeeds _ _ Hway) as [m1 Hmk].
  rewrite handleCreatePlugin_cases. fold d. rewrite Hmk. cbn [fst snd files].
  assert (Hsame : ∀ l, l ≠ [] → m1 !! (d ++ l) = files w !! (d ++ l))
    by (intros l Hl; now apply mkdirs_below).
  rewrite src_index_path. unfold create_run. rewrite src_index_path.
  unfold Path.join in *.
  rewrite !Hsame by done. rewrite H1, H2, H3, H4, Hsrc. cbn [fst snd].
  split; [eexists; reflexivity|].
  rewrite !lookup_insert.
  repeat split; decide_paths; try reflexivity; now apply Hsame.
Qed.

Lemma create_plugin_no_rollback_witness :
  let w := mkWorld {[ ["home"] := Dir;
                      ["home"; "out"] := Dir;
                      ["home"; "out"; "src"] := File "not a directory" ]} [] in
  let args := mkCreatePluginArgs "widget" "d" "out" None in
  let w' := (handleCreatePlugin ["home"] args w).2 in
  files w' !! ["home"; "out"; "vite.config.ts"] = Some (File (viteConfig args))
  ∧ files w' !! ["home"; "out"; "src"; "index.tsx"] = None.
Proof.
  intros w args w'.
  assert (Hway : ∀ q, q ∈ Path.chain [] (Path.resolve ["home"] (outputPath args)) →
                      is_file (files w !! q) = false).
  { intros q Hq. vm_compute in Hq.
    apply elem_of_cons in Hq as [->|Hq]; [reflexivity|].
    apply elem_of_cons in Hq as [->|Hq]; [reflexivity|].
    inversion Hq. }
  destruct (create_plugin_no_rollback ["home"] args w Hway
              eq_refl eq_refl eq_refl eq_refl eq_refl)
    as (_ & _ & _ & _ & Hvite & _ & Hidx).
  split; [exact Hvite | exact Hidx].
Defined.



(** X7. After a successful [create_plugin] the output directory, each of
    its ancestors and its [src] subdirectory are directories, whether they
    were there before or not. *)
Theorem create_plugin_makes_directories
        (cwd : path) (args : CreatePluginArgs) (w w' : World) (r : ToolResult) :
  handleCreatePlugin cwd args w = (Returned r, w') →
  ∀ q, q ∈ Path.chain [] (Path.join (Path.resolve cwd (outputPath args)) "src") →
       files w' !! q = Some Dir.
Proof.
  intros Hrun q Hq.
  destruct (handleCreatePlugin_inv cwd args w w' r Hrun)
    as (m1 & Hmk & _ & _ & ->).
  cbn [files]. unfold Path.join in Hq. rewrite chain_app in Hq.
  apply elem_of_app in Hq as [Hq|Hq].
  - apply scaffold_dirs_made; [|exact Hq].
    intros p Hp. now apply (mkdirs_lookup _ _ _ Hmk).
  - apply list_elem_of_singleton in Hq as ->. cbn [app].
    rewrite scaffold_lookup. now decide_paths.
Qed.

Lemma create_plugin_makes_directories_witness :
  let w' := (handleCreatePlugin ["home"]
               (mkCreatePluginArgs "widget" "d" "a/b" None) (mkWorld ∅ [])).2 in
  files w' !! ["home"; "a"] = Some Dir
  ∧ files w' !! ["home"; "a"; "b"; "src"] = Some Dir.
Proof.
  intros w'.
  pose proof (create_plugin_makes_directories ["home"]
                (mkCreatePluginArgs "widget" "d" "a/b" None) (mkWorld ∅ []) w'
                (created ["home"; "a"; "b"])) as H.
  assert (Hrun : handleCreatePlugin ["home"]
                   (mkCreatePluginArgs "widget" "d" "a/b" None) (mkWorld ∅ [])
                 = (Returned (created ["home"; "a"; "b"]), w'))
    by (vm_compute; reflexivity).
  split; apply (H Hrun); vm_compute; in_list.
Defined.

(** X8. A second [create_plugin] into the directory of a successful first
    one, with any name, description and features, succeeds and leaves
    exactly what it would have left had the first call not been made: the
    five files are overwritten, nothing of the first request stays. *)
Theorem create_plugin_overwrites
        (cwd : path) (args1 args2 : CreatePluginArgs) (w w1 : World) (r : ToolResult) :
  handleCreatePlugin cwd args1 w = (Returned r, w1) →
  Path.resolve cwd (outputPath args2) = Path.resolve cwd (outputPath args1) →
  handleCreatePlugin cwd args2 w1 = handleCreatePlugin cwd args2 w
  ∧ (handleCreatePlugin cwd args2 w1).1
    = Returned (created (Path.resolve cwd (outputPath args1))).
Proof.
  intros Hrun Hout.
  destruct (handleCreatePlugin_inv cwd args1 w w1 r Hrun)
    as (m1 & Hmk & Hok & _ & ->).
  set (d := Path.resolve cwd (outputPath args1)) in *.
  assert (Hdirs : dirs_made d m1)
    by (intros q Hq; now apply (mkdirs_lookup _ _ _ Hmk)).
  rewrite (handleCreatePlugin_success cwd args2 (mkWorld (scaffold args1 d m1) (spawned w))
             (scaffold args1 d m1)).
  - rewrite (handleCreatePlugin_success cwd args2 w m1);
      rewrite ?Hout; try assumption.
    cbn [spawned fst]. now rewrite scaffold_scaffold.
  - rewrite Hout. cbn [files]. apply mkdirs_idem.
    now apply scaffold_dirs_made.
  - rewrite Hout. apply scaffold_ok_scaffold.
Qed.

Lemma create_plugin_overwrites_witness :
  let cwd := ["home"] in
  let args1 := mkCreatePluginArgs "first" "d" "out" (Some ["wallet-connect"]) in
  let args2 := mkCreatePluginArgs "second-try" "e" "./out" None in
  let w1 := (handleCreatePlugin cwd args1 (mkWorld ∅ [])).2 in
  handleCreatePlugin cwd args2 w1 = handleCreatePlugin cwd args2 (mkWorld ∅ []).
Proof.
  intros cwd args1 args2 w1.
  apply (create_plugin_overwrites cwd args1 args2 (mkWorld ∅ []) w1
           (created ["home"; "out"])).
  - vm_compute. reflexivity.
  - reflexivity.
Defined.

Lemma found_in_contains (needle hay : string) :
  found_in needle hay = true → Str.contains hay needle.
Proof.
  unfold found_in. destruct (Str.after_first needle hay) as [rest|] eqn:E;
    [|discriminate].
  intros _. destruct (after_first_sound _ _ _ E) as [pre ->]. now exists pre, rest.
Qed.

Lemma contains_append_l (a b needle : string) :
  Str.contains a needle → Str.contains (a +:+ b) needle.
Proof.
  intros (pre & post & ->). exists pre, (post +:+ b).
  now rewrite !append_assoc.
Qed.

(** X9. The imports of the generated source file against the generated
    package descriptor, for every request: the file imports from [react],
    which the descriptor declares, and from [framer] and [framer-motion],
    which it declares neither as a dependency nor as a development
    dependency (it declares [@framer/framer.motion]); with [wallet-connect]
    the file also imports from [@web3-react/core],
    [@web3-react/injected-connector] and [ethers], all three declared, and
    without it none of these three is declared. *)
Theorem generated_imports_and_dependencies (args : CreatePluginArgs) :
  (Str.contains (indexContent args) "from 'react';"
   ∧ declared_package args "react" = true)
  ∧ (Str.contains (indexContent args) "from 'framer';"
     ∧ declared_package args "framer" = false)
  ∧ (Str.contains (indexContent args) "from 'framer-motion';"
     ∧ declared_package args "framer-motion" = false
     ∧ declared_package args "@framer/framer.motion" = true)
  ∧ (if has_wallet_connect args then
       Str.contains (indexContent args) "from '@web3-react/core';"
       ∧ Str.contains (indexContent args) "from '@web3-react/injected-connector';"
       ∧ Str.contains (indexContent args) "from 'ethers';"
       ∧ forallb (declared_package args) (Json.keys web3_dependencies) = true
     else
       forallb (λ k, negb (declared_package args k)) (Json.keys web3_dependencies)
       = true).
Proof.
  unfold declared_package, packageJson, indexContent.
  destruct (has_wallet_connect args);
    repeat split;
    try (apply contains_append_l, found_in_contains; vm_compute; reflexivity);
    reflexivity.
Qed.

(** X10. The generated configuration points at what is generated: after a
    successful [create_plugin], every path that [tsconfig.json]
    (its [include] and its project reference), [tsconfig.node.json] (its
    [include]) and [vite.config.ts] (its library entry) name, taken
    relative to the project directory, exists in the tree. *)
Theorem generated_config_paths_exist
        (cwd : path) (args : CreatePluginArgs) (w w' : World) (r : ToolResult) :
  handleCreatePlugin cwd args w = (Returned r, w') →
  referenced_paths args = ["src"; "./tsconfig.node.json"; "vite.config.ts"; "src/index.tsx"]
  ∧ ∀ ref, ref ∈ referenced_paths args →
           is_Some (files w' !! Path.resolve (Path.resolve cwd (outputPath args)) ref).
Proof.
  intros Hrun.
  assert (Hrefs : referenced_paths args
                  = ["src"; "./tsconfig.node.json"; "vite.config.ts"; "src/index.tsx"]).
  { unfold referenced_paths, vite_entry, viteConfig.
    generalize (name args). intros n. vm_compute. reflexivity. }
  split; [exact Hrefs|]. rewrite Hrefs.
  destruct (handleCreatePlugin_inv cwd args w w' r Hrun)
    as (m1 & _ & _ & _ & ->).
  cbn [files]. set (d := Path.resolve cwd (outputPath args)).
  intros ref Href. rewrite !elem_of_cons, elem_of_nil in Href.
  destruct Href as [->|[->|[->|[->|[]]]]].
  - change (Path.resolve d "src") with (Path.join d "src").
    rewrite scaffold_lookup. decide_paths. eauto.
  - change (Path.resolve d "./tsconfig.node.json")
      with (Path.join d "tsconfig.node.json").
    rewrite scaffold_lookup. decide_paths. eauto.
  - change (Path.resolve d "vite.config.ts") with (Path.join d "vite.config.ts").
    rewrite scaffold_lookup. decide_paths. eauto.
  - change (Path.resolve d "src/index.tsx")
      with (Path.join (Path.join d "src") "index.tsx").
    rewrite scaffold_lookup. decide_paths. eauto.
Qed.

Lemma generated_config_paths_exist_witness :
  let args := mkCreatePluginArgs "my-cool-plugin" "d" "out" None in
  let w' := (handleCreatePlugin ["home"] args (mkWorld ∅ [])).2 in
  is_Some (files w' !! ["home"; "out"; "src"; "index.tsx"]).
Proof.
  intros args w'.
  assert (Hrun : handleCreatePlugin ["home"] args (mkWorld ∅ [])
                 = (Returned (created ["home"; "out"]), w'))
    by (vm_compute; reflexivity).
  destruct (generated_config_paths_exist ["home"] args (mkWorld ∅ []) w' _ Hrun)
    as [Hrefs Hall].
  apply (Hall "src/index.tsx"). rewrite Hrefs. in_list.
Defined.




Lemma dash_to_underscore_fixed (s : string) :
  dash_to_underscore s = s ↔ ¬ Str.occurs "-" s.
Proof.
  split.
  - intros Heq Hocc. apply (dash_to_underscore_no_dash s). now rewrite Heq.
  - induction s as [|c s IH]; intros Hno; [reflexivity|]. simpl.
    destruct (Ascii.eqb_spec c "-") as [->|_].
    + exfalso. apply Hno. now exists 0.
    + f_equal. apply IH. intros [i Hi]. apply Hno. now exists (S i).
Qed.

(** X13. The name reaches [vite.config.ts] as it is: the text after the
    first [name: '] is the request's name followed by the closing quote.
    The identifier of the component in [src/index.tsx] is the name itself
    exactly when the name has no dash. *)
Theorem name_in_generated_files (args : CreatePluginArgs) :
  (∃ rest, Str.after_first "name: '" (viteConfig args)
           = Some (name args +:+ "'" +:+ rest))
  ∧ (component_name args = name args ↔ ¬ Str.occurs "-" (name args)).
Proof.
  split.
  - unfold viteConfig. generalize (name args). intros n.
    eexists. vm_compute. reflexivity.
  - unfold component_name. rewrite replace_all_dash.
    apply dash_to_underscore_fixed.
Qed.

Lemma found_in_slash_cons (c : ascii) (s : string) :
  found_in "/" (String c s) = Ascii.eqb "/" c || found_in "/" s.
Proof.
  unfold found_in. cbn [Str.after_first Str.strip_prefix].
  destruct (Ascii.eqb "/" c); [reflexivity|].
  destruct (Str.after_first "/" s); reflexivity.
Qed.

Lemma split_on_no_sep (s piece : string) :
  piece ∈ Str.split_on "/" s → found_in "/" piece = false.
Proof.
  revert piece; induction s as [|c s IH]; intros piece; simpl.
  - intros ->%list_elem_of_singleton. reflexivity.
  - destruct (Ascii.eqb c "/") eqn:Ec.
    + intros [->|H]%elem_of_cons; [reflexivity | now apply IH].
    + rewrite Ascii.eqb_sym in Ec.
      destruct (Str.split_on "/" s) as [|first rest] eqn:Es.
      * intros ->%list_elem_of_singleton.
        now rewrite found_in_slash_cons, Ec.
      * intros [->|H]%elem_of_cons.
        -- rewrite found_in_slash_cons, Ec. apply IH, list_elem_of_here.
        -- apply IH. now apply list_elem_of_further.
Qed.

Lemma Forall_removelast {A : Type} (P : A → Prop) (l : list A) :
  Forall P l → Forall P (removelast l).
Proof.
  induction 1 as [|x l Hx Hl IH]; [constructor|].
  simpl. destruct l; [constructor | now constructor].
Qed.

Lemma push_segment_normal (p : path) (seg : string) :
  found_in "/" seg = false →
  Forall (λ x, normal_segment x = true) p →
  Forall (λ x, normal_segment x = true) (Path.push_segment p seg).
Proof.
  intros Hslash Hp. unfold Path.push_segment.
  destruct (String.eqb seg "") eqn:E1; [exact Hp|].
  destruct (String.eqb seg ".") eqn:E2; [exact Hp|]. cbn [orb].
  destruct (String.eqb seg "..") eqn:E3; [now apply Forall_removelast|].
  apply Forall_app. split; [exact Hp|]. constructor; [|constructor].
  unfold normal_segment. now rewrite E1, E2, E3, Hslash.
Qed.

(** X14. The directory a handler works in is a normalised absolute path:
    when the working directory of the server is normalised, every segment
    of the resolved [outputPath] or [pluginPath] is non-empty, is neither
    [.] nor [..] and holds no slash, whatever the string given. *)
Theorem resolved_path_is_normal (cwd : path) (s : string) :
  Forall (λ x, normal_segment x = true) cwd →
  Forall (λ x, normal_segment x = true) (Path.resolve cwd s).
Proof.
  intros Hcwd. unfold Path.resolve.
  assert (Hstart : Forall (λ x, normal_segment x = true)
                          (if Path.is_absolute s then [] else cwd))
    by (destruct (Path.is_absolute s); [constructor | exact Hcwd]).
  assert (Hpieces : ∀ piece, piece ∈ Str.split_on "/" s → found_in "/" piece = false)
    by (intros piece; apply split_on_no_sep).
  revert Hstart Hpieces.
  generalize (if Path.is_absolute s then [] else cwd) as start.
  induction (Str.split_on "/" s) as [|seg rest IH]; intros start Hstart Hpieces;
    [exact Hstart|].
  simpl. apply IH.
  - apply push_segment_normal; [apply Hpieces, list_elem_of_here | exact Hstart].
  - intros piece Hp. apply Hpieces. now apply list_elem_of_further.
Qed.

Lemma resolved_path_is_normal_witness :
  Forall (λ x, normal_segment x = true)
         (Path.resolve ["home"; "user"] "../plugins//./my-plugin/")
  ∧ Path.resolve ["home"; "user"] "../plugins//./my-plugin/"
    = ["home"; "plugins"; "my-plugin"].
Proof.
  split; [|reflexivity].
  apply (resolved_path_is_normal ["home"; "user"]).
  repeat constructor.
Defined.
